(** * Discounted cash flow per share: [CalculateDCFDensity] of [dcf.py]

    The valuation routine of [dcf.py] is embedded as a Rocq function over
    exact rationals.  Python's arithmetic operators are those of its numeric
    tower; the embedding interprets them in [Q], which is what the routine
    computes on [fractions.Fraction] arguments.  The program itself runs on
    binary64 numbers.  Their rounding, which includes the overflow of [+],
    [-], [*] and [/] to an infinity, is not modelled, nor is the overflow
    and underflow of [**]: a value stated here is the value of the program
    up to rounding, and a statement that the program returns, or raises a
    given exception, asks for discount factors that binary64 holds (see
    [discount_safe]).  A second embedding over binary64 is evaluated on
    concrete arguments where rounding decides a claim.

    Statements that can raise are written in a small error monad: a list
    index out of range raises [IndexError], a division by a zero divisor
    raises [ZeroDivisionError], exactly where the Python statements do. *)

From Stdlib Require Import Floats.
From Stdlib Require Import String Ascii DecimalString.
From Stdlib Require Import ZArith QArith Qpower Qabs Qfield List Lia Lqa Bool.
From Stdlib Require Import Setoid Morphisms.
Import ListNotations.

Local Open Scope Q_scope.

(** ** Exceptions and results *)

(** [IndexError] and [ZeroDivisionError] are the built-in exceptions that the
    indexing and division statements of the source raise; [OverflowError]
    is raised by [**] on binary64 numbers.  [InvalidModelParameters] and
    [InsufficientData] are the two validation errors named by the
    specification; no statement of [dcf.py] raises them. *)
Inductive exn : Type :=
| IndexError
| ZeroDivisionError
| OverflowError
| InvalidModelParameters
| InsufficientData.

Inductive result (A : Type) : Type :=
| Returns (a : A)
| Raises (e : exn).

Arguments Returns {A} a.
Arguments Raises {A} e.

Definition bind {A B : Type} (m : result A) (k : A -> result B) : result B :=
  match m with
  | Returns a => k a
  | Raises e => Raises e
  end.

Notation "x <- m ;; k" := (bind m (fun x => k))
  (at level 61, m at next level, right associativity).
Notation "' pat <- m ;; k" := (bind m (fun x => match x with pat => k end))
  (at level 61, pat pattern, m at next level, right associativity).

(** Two results agree when they raise the same exception or return equal
    numbers. *)
Definition result_eq (r1 r2 : result Q) : Prop :=
  match r1, r2 with
  | Returns a, Returns b => a == b
  | Raises e1, Raises e2 => e1 = e2
  | _, _ => False
  end.

(** The result of a call whose returned number is rescaled. *)
Definition scale_result (lam : Q) (r : result Q) : result Q :=
  match r with
  | Returns a => Returns (lam * a)
  | Raises e => Raises e
  end.

(** ** Python primitives used by the routine *)

(** [range(a, b)] for integers. *)
Definition py_range (a b : Z) : list Z :=
  map (fun k => (a + Z.of_nat k)%Z) (seq 0 (Z.to_nat (b - a))).

(** [l[i]]: a negative index counts from the end; out of range raises. *)
Definition py_index {A : Type} (l : list A) (i : Z) : result A :=
  let n := Z.of_nat (length l) in
  let j := if (i <? 0)%Z then (i + n)%Z else i in
  if ((j <? 0) || (n <=? j))%Z then Raises IndexError
  else match nth_error l (Z.to_nat j) with
       | Some x => Returns x
       | None => Raises IndexError
       end.

(** [x / y]. *)
Definition py_div (x y : Q) : result Q :=
  if Qeq_bool y 0 then Raises ZeroDivisionError else Returns (x / y).

(** [x ** t] for an integer exponent [t]. *)
Definition py_pow (x : Q) (t : Z) : result Q :=
  if ((t <? 0)%Z && Qeq_bool x 0)%bool then Raises ZeroDivisionError
  else Returns (x ^ t).

(** [sum(l)]: left to right, starting from [0]. *)
Definition py_sum (l : list Q) : Q := fold_left Qplus l 0.

(** [for i in idxs: st = body(i, st)], stopping at the first exception. *)
Fixpoint for_each {S : Type} (body : Z -> S -> result S) (idxs : list Z)
  (st : S) : result S :=
  match idxs with
  | [] => Returns st
  | i :: rest => st' <- body i st ;; for_each body rest st'
  end.

(** ** The routine *)

Section Engine.

Variables (fcf : list Q) (periodForwards : Z).
Variables (growthRate perpetualGrowthRate discountRate : Q).
Variables (totalCash totalDebt outstandingShares : Q).

(** Line 25. *)
Definition tlist : list Z := py_range 1 (periodForwards + 2).

(** Lines 27-32: the two lists after the first projected year. *)
Definition first_year : result (list Q * list Q) :=
  let ffcf := [] in
  let pvffcf := [] in
  fcf0 <- py_index fcf (-1) ;;
  let ffcf := ffcf ++ [fcf0 * (1 + growthRate)] in
  a <- py_index ffcf 0 ;;
  t <- py_index tlist 0 ;;
  p <- py_pow (1 + discountRate) t ;;
  d <- py_div a p ;;
  Returns (ffcf, pvffcf ++ [d]).

(** Lines 36-37: one turn of the loop. *)
Definition loop_body (i : Z) (st : list Q * list Q)
  : result (list Q * list Q) :=
  let '(ffcf, pvffcf) := st in
  prev <- py_index ffcf (i - 1) ;;
  let ffcf := ffcf ++ [prev * (1 + growthRate)] in
  a <- py_index ffcf i ;;
  t <- py_index tlist i ;;
  p <- py_pow (1 + discountRate) t ;;
  d <- py_div a p ;;
  Returns (ffcf, pvffcf ++ [d]).

(** Lines 25-37: the explicit projection [ffcf] and its present values
    [pvffcf], before the terminal value is appended. *)
Definition explicit_projection : result (list Q * list Q) :=
  st <- first_year ;;
  for_each loop_body (py_range 1 periodForwards) st.

(** Lines 39-40: the terminal value and its present value. *)
Definition terminal (st : list Q * list Q) : result (list Q * list Q) :=
  let '(ffcf, pvffcf) := st in
  lastp <- py_index ffcf (-1) ;;
  tv <- py_div (lastp * (1 + perpetualGrowthRate))
               (discountRate - perpetualGrowthRate) ;;
  let ffcf := ffcf ++ [tv] in
  a <- py_index ffcf (-1) ;;
  t <- py_index tlist (-1) ;;
  p <- py_pow (1 + discountRate) t ;;
  d <- py_div a p ;;
  Returns (ffcf, pvffcf ++ [d]).

(** Lines 25-40: all cash flows and all present values. *)
Definition cash_flows : result (list Q * list Q) :=
  st <- explicit_projection ;;
  terminal st.

(** Lines 42-44. *)
Definition equity_value : result Q :=
  '(_, pvffcf) <- cash_flows ;;
  let pvffcfSum := py_sum pvffcf in
  Returns (pvffcfSum + totalCash - totalDebt).

(** Lines 23-48.  The assignment [dcftotal = 0] of line 34 is dead. *)
Definition CalculateDCFDensity : result Q :=
  equityValue <- equity_value ;;
  dcfdensity <- py_div equityValue outstandingShares ;;
  Returns dcfdensity.

End Engine.

(** ** Closed forms *)

(** [sum_from_1 f n] is the sum of [f t] for [t = 1..n]. *)
Fixpoint sum_from_1 (f : nat -> Q) (n : nat) : Q :=
  match n with
  | O => 0
  | S k => sum_from_1 f k + f (S k)
  end.

(** Present value of the projected cash flow of year [t]. *)
Definition explicit_pv (fcf0 g dr : Q) (t : nat) : Q :=
  fcf0 * (1 + g) ^ Z.of_nat t / (1 + dr) ^ Z.of_nat t.

(** Present value of the terminal cash flow that follows [n] projected years
    and is discounted at horizon [e]. *)
Definition terminal_pv (fcf0 : Q) (n : nat) (e : Z) (g pg dr : Q) : Q :=
  fcf0 * (1 + g) ^ Z.of_nat n * (1 + pg) / ((dr - pg) * (1 + dr) ^ e).

(** Per-share value with [n] projected years and terminal horizon [e]. *)
Definition dcf_value (fcf0 : Q) (n : nat) (e : Z) (g pg dr cash debt os : Q)
  : Q :=
  (sum_from_1 (explicit_pv fcf0 g dr) n + terminal_pv fcf0 n e g pg dr
   + cash - debt) / os.

(** The formula of the valuation: [forwardPeriods] projected years, terminal
    value discounted at [forwardPeriods + 1]. *)
Definition closed_form (fcf0 : Q) (pf : Z) (g pg dr cash debt os : Q) : Q :=
  dcf_value fcf0 (Z.to_nat pf) (pf + 1) g pg dr cash debt os.

(** The most recent free cash flow of a history. *)
Definition last_fcf (fcf : list Q) : Q := last fcf 0.

(** ** Magnitudes binary64 holds

    The program computes [(1 + discountRate) ** t] in binary64, where the
    power raises [OverflowError] from about [2 ^ 1024] on and becomes [0.0]
    below about [2 ^ -1075], after which the division by it raises
    [ZeroDivisionError].  Exact arithmetic has neither path, so the
    statements that say what the program returns or raises ask for
    discount factors well inside that range. *)

(** A magnitude between [2 ^ -1000] and [2 ^ 1000]. *)
Definition float_safe (x : Q) : Prop :=
  (1 # 2) ^ 1000 <= Qabs x /\ Qabs x <= 2 ^ 1000.

(** The discount factors of the years [1 .. periodForwards + 1] are of such
    a magnitude: they lie between [1] and the last one. *)
Definition discount_safe (dr : Q) (pf : Z) : Prop :=
  float_safe ((1 + dr) ^ (pf + 1)).

(** ** The lists built by the loop *)

(** Projected cash flow at list position [k]: the seed is grown first. *)
Fixpoint proj (fcf0 g : Q) (k : nat) : Q :=
  match k with
  | O => fcf0 * (1 + g)
  | S k' => proj fcf0 g k' * (1 + g)
  end.

Definition proj_pv (fcf0 g dr : Q) (k : nat) : Q :=
  proj fcf0 g k / (1 + dr) ^ (1 + Z.of_nat k).

Definition ffcf_upto (fcf0 g : Q) (n : nat) : list Q :=
  map (proj fcf0 g) (seq 0 n).

Definition pvffcf_upto (fcf0 g dr : Q) (n : nat) : list Q :=
  map (proj_pv fcf0 g dr) (seq 0 n).

(** Number of projected years the loop produces: one even when
    [periodForwards] is [0]. *)
Definition years (pf : Z) : nat := Z.to_nat (Z.max pf 1).

(** The equity value and the number returned on the path where nothing
    raises. *)
Definition equity_exact (fcf0 : Q) (pf : Z) (g pg dr cash debt : Q) : Q :=
  let n := years pf in
  let tv := proj fcf0 g (n - 1) * (1 + pg) / (dr - pg) in
  py_sum (pvffcf_upto fcf0 g dr n ++ [tv / (1 + dr) ^ (pf + 1)])
  + cash - debt.

Definition dcf_exact (fcf0 : Q) (pf : Z) (g pg dr cash debt os : Q) : Q :=
  equity_exact fcf0 pf g pg dr cash debt / os.

(** Outcome of the routine on a history whose last element is [fcf0]. *)
Definition dcf_outcome (fcf0 : Q) (pf : Z) (g pg dr cash debt os : Q)
  : result Q :=
  if (pf <? 0)%Z then Raises IndexError
  else if Qeq_bool (1 + dr) 0 then Raises ZeroDivisionError
  else if Qeq_bool (dr - pg) 0 then Raises ZeroDivisionError
  else if Qeq_bool os 0 then Raises ZeroDivisionError
  else Returns (dcf_exact fcf0 pf g pg dr cash debt os).

(** Present value, per unit of the seed cash flow, of the [n] projected
    years and of the terminal cash flow discounted at horizon [e]. *)
Definition pv_factor (n : nat) (e : Z) (g pg dr : Q) : Q :=
  sum_from_1 (explicit_pv 1 g dr) n + terminal_pv 1 n e g pg dr.

(** The Gordon perpetuity on the seed: [fcf0 (1+g) / (dr - g)]. *)
Definition gordon (fcf0 g dr : Q) : Q := fcf0 * (1 + g) / (dr - g).

(** ** The routine in binary64

    The same statements over IEEE 754 binary64 numbers, the numbers the
    program computes with.  [+], [-], [*] and [/] are the primitive
    operations.  [**] is the correctly rounded power, which the [pow] of
    the C library agrees with wherever the power is representable exactly,
    and [sum] adds from left to right, as does the compensated [sum] of
    recent interpreters wherever the partial sums are exact.  This run is
    evaluated on concrete arguments on which every power and partial sum
    is exact, to show where rounding separates the program from exact
    arithmetic. *)

(** [x / y]. *)
Definition py_div64 (x y : float) : result float :=
  if (y =? 0)%float then Raises ZeroDivisionError else Returns (x / y)%float.

(** [x ** t] for an integer [t]: the exact power, rounded once; a result too
    large for binary64 raises [OverflowError], one too small is [0.0]. *)
Definition py_pow64 (x : float) (t : Z) : result float :=
  let negate := (get_sign x && Z.odd t)%bool in
  let signed (r : float) := if negate then (- r)%float else r in
  if (t =? 0)%Z then Returns 1%float
  else
    match Prim2SF x with
    | S754_nan => Returns nan
    | S754_zero _ =>
        if (t <? 0)%Z then Raises ZeroDivisionError
        else Returns (signed 0%float)
    | S754_infinity _ =>
        Returns (signed (if (t <? 0)%Z then 0%float else infinity))
    | S754_finite _ m e =>
        let k := Z.abs t in
        let r :=
          SF2Prim
            (if (t <? 0)%Z
             then SFdiv prec emax (S754_finite false 1 0)
                    (S754_finite false (Z.to_pos (Zpos m ^ k)) (e * k))
             else binary_normalize prec emax (Zpos m ^ k) (e * k) false) in
        if is_infinity r then Raises OverflowError else Returns (signed r)
    end.

(** [sum(l)]. *)
Definition py_sum64 (l : list float) : float :=
  fold_left PrimFloat.add l 0%float.

Section Engine64.

Variables (fcf : list float) (periodForwards : Z).
Variables (growthRate perpetualGrowthRate discountRate : float).
Variables (totalCash totalDebt outstandingShares : float).

(** Lines 27-32. *)
Definition first_year64 : result (list float * list float) :=
  let ffcf := [] in
  let pvffcf := [] in
  fcf0 <- py_index fcf (-1) ;;
  let ffcf := ffcf ++ [(fcf0 * (1 + growthRate))%float] in
  a <- py_index ffcf 0 ;;
  t <- py_index (tlist periodForwards) 0 ;;
  p <- py_pow64 (1 + discountRate)%float t ;;
  d <- py_div64 a p ;;
  Returns (ffcf, pvffcf ++ [d]).

(** Lines 36-37. *)
Definition loop_body64 (i : Z) (st : list float * list float)
  : result (list float * list float) :=
  let '(ffcf, pvffcf) := st in
  prev <- py_index ffcf (i - 1) ;;
  let ffcf := ffcf ++ [(prev * (1 + growthRate))%float] in
  a <- py_index ffcf i ;;
  t <- py_index (tlist periodForwards) i ;;
  p <- py_pow64 (1 + discountRate)%float t ;;
  d <- py_div64 a p ;;
  Returns (ffcf, pvffcf ++ [d]).

(** Lines 39-40. *)
Definition terminal64 (st : list float * list float)
  : result (list float * list float) :=
  let '(ffcf, pvffcf) := st in
  lastp <- py_index ffcf (-1) ;;
  tv <- py_div64 (lastp * (1 + perpetualGrowthRate))%float
                 (discountRate - perpetualGrowthRate)%float ;;
  let ffcf := ffcf ++ [tv] in
  a <- py_index ffcf (-1) ;;
  t <- py_index (tlist periodForwards) (-1) ;;
  p <- py_pow64 (1 + discountRate)%float t ;;
  d <- py_div64 a p ;;
  Returns (ffcf, pvffcf ++ [d]).

(** Lines 23-48. *)
Definition CalculateDCFDensity64 : result float :=
  st <- first_year64 ;;
  st <- for_each loop_body64 (py_range 1 periodForwards) st ;;
  '(_, pvffcf) <- terminal64 st ;;
  let pvffcfSum := py_sum64 pvffcf in
  let equityValue := (pvffcfSum + totalCash - totalDebt)%float in
  dcfdensity <- py_div64 equityValue outstandingShares ;;
  Returns dcfdensity.

End Engine64.

(** ** The scraper and the command line program

    The rest of [dcf.py] fetches four pages with [requests.get], reads
    numbers out of them with [BeautifulSoup] and calls the routine.  The
    two libraries are outside the program; the embedding starts from what
    they hand over: a page is its status code together with what
    [find_all(attrs={name: value})] finds in it, and each request made is
    recorded in a log, as is each line printed.  Requests that are answered
    are covered; a request that itself raises is not. *)

(** Exceptions of this part: those of the routine, [Exception(msg)] raised
    by the program, and the [ValueError] of [float]. *)
Inductive error : Type :=
| Builtin (e : exn)
| Exception (msg : string)
| ValueError.

Inductive outcome (A : Type) : Type :=
| Ok (a : A)
| Fail (e : error).

Arguments Ok {A} a.
Arguments Fail {A} e.

Definition of_result {A : Type} (r : result A) : outcome A :=
  match r with
  | Returns a => Ok a
  | Raises e => Fail (Builtin e)
  end.

(** The [headers] dictionary handed to [requests.get]. *)
Definition header : Type := list (string * string).

(** What the program uses of the element [e.parent.parent] of a match [e]:
    the texts of its [span] and of its [td] descendants, in document
    order. *)
Record element : Type := { spans : list string; tds : list string }.

(** What the program uses of a response: [status_code], and for an attribute
    name and value the list [find_all(attrs={name: value})] of matches, each
    given by its [.parent.parent]. *)
Record page : Type :=
  { status_code : Z; find_all : string -> string -> list element }.

Inductive event : Type :=
| Requested (url : string) (h : header)
| Printed (line : string)
| PrintedPrice (price : Q).

(** A computation that extends the log and returns or raises. *)
Definition io (A : Type) : Type := list event -> outcome A * list event.

Definition io_ret {A : Type} (a : A) : io A := fun log => (Ok a, log).

Definition io_raise {A : Type} (e : error) : io A := fun log => (Fail e, log).

Definition io_lift {A : Type} (o : outcome A) : io A := fun log => (o, log).

Definition io_bind {A B : Type} (m : io A) (k : A -> io B) : io B :=
  fun log =>
    match m log with
    | (Ok a, log') => k a log'
    | (Fail e, log') => (Fail e, log')
    end.

Notation "x <~ m ;; k" := (io_bind m (fun x => k))
  (at level 61, m at next level, right associativity).

Definition emit (e : event) : io unit := fun log => (Ok tt, log ++ [e]).

(** [str(n)] for an integer. *)
Definition py_str (n : Z) : string := NilZero.string_of_int (Z.to_int n).

(** [s[i]] for a string. *)
Definition py_char_at (s : string) (i : Z) : outcome ascii :=
  let n := Z.of_nat (String.length s) in
  let j := if (i <? 0)%Z then (i + n)%Z else i in
  if ((j <? 0) || (n <=? j))%Z then Fail (Builtin IndexError)
  else match String.get (Z.to_nat j) s with
       | Some c => Ok c
       | None => Fail (Builtin IndexError)
       end.

(** [s.replace(c, '')] for a one-character [c]. *)
Fixpoint remove_char (c : ascii) (s : string) : string :=
  match s with
  | EmptyString => EmptyString
  | String a rest =>
      if Ascii.eqb a c then remove_char c rest
      else String a (remove_char c rest)
  end.

(** [l[a:b]]. *)
Definition py_slice {A : Type} (l : list A) (a b : Z) : list A :=
  let n := Z.of_nat (length l) in
  let clamp i := if (i <? 0)%Z then Z.max (i + n) 0 else Z.min i n in
  skipn (Z.to_nat (clamp a)) (firstn (Z.to_nat (clamp b)) l).

(** Lines 138-148. *)
Definition CheckHTTPStatusCode (code : Z) : outcome unit :=
  match py_char_at (py_str code) 0 with
  | Fail e => Fail e
  | Ok c =>
      if Ascii.eqb c "1" then Ok tt
      else if Ascii.eqb c "2" then Ok tt
      else if Ascii.eqb c "3"
      then Fail (Exception "HTTP status: 3xx redirection")
      else if Ascii.eqb c "4"
      then Fail (Exception "HTTP status: 4xx client error")
      else if Ascii.eqb c "5"
      then Fail (Exception "HTTP status: 5xx client error")
      else Ok tt
  end.

Section Scraper.

(** [float] on a string, [None] standing for [ValueError]; numbers are exact
    rationals as in the routine. *)
Variable py_float : string -> option Q.

(** [requests.get(url, headers=h)] when the request is answered. *)
Variable requests_get : string -> header -> page.

Definition request (url : string) (h : header) : io page :=
  fun log => (Ok (requests_get url h), log ++ [Requested url h]).

(** [float(text.replace(c, ''))]. *)
Definition float_without (c : ascii) (text : string) : outcome Q :=
  match py_float (remove_char c text) with
  | Some v => Ok v
  | None => Fail ValueError
  end.

(** [[float(s.text.replace(',', '')) for s in tags]]: the first text that is
    not a number raises. *)
Fixpoint float_each (texts : list string) : outcome (list Q) :=
  match texts with
  | [] => Ok []
  | t :: rest =>
      match float_without "," t with
      | Fail e => Fail e
      | Ok v =>
          match float_each rest with
          | Fail e => Fail e
          | Ok vs => Ok (v :: vs)
          end
      end
  end.

(** Lines 105-136.  The bare [except] of line 131 cannot be reached: the
    [assert] raises nothing but [AssertionError]. *)
Definition GetFreeCashFlow (ticker : string) (h : header) (t : Z)
  : io (list Q) :=
  let url :=
    ("https://uk.finance.yahoo.com/quote/" ++ ticker ++ "/cash-flow")%string in
  page <~ request url h ;;
  if (4 <? t)%Z
  then io_raise (Exception "Too many years in past for Yahoo Finance data")
  else if (t <? 1)%Z
  then io_raise (Exception "Too years in past is less than one")
  else
    _ <~ io_lift (CheckHTTPStatusCode (status_code page)) ;;
    fcftagparent <~
      io_lift (of_result (py_index (find_all page "title" "Free cash flow") 1)) ;;
    let fcftag := py_slice (spans fcftagparent) 2 (t + 2) in
    fcf0list <~ io_lift (float_each fcftag) ;;
    let fcflist := map (fun fcf => fcf * 1000) fcf0list in
    let fcflist :=
      if (t <=? Z.of_nat (length fcflist))%Z then fcflist
      else py_slice fcflist 0 t in
    io_ret (rev fcflist).

(** Lines 87-102. *)
Definition GetTotalCash (ticker : string) (h : header) : io Q :=
  let url :=
    ("https://uk.finance.yahoo.com/quote/" ++ ticker ++ "/balance-sheet")%string
  in
  page <~ request url h ;;
  _ <~ io_lift (CheckHTTPStatusCode (status_code page)) ;;
  row <~ io_lift (of_result (py_index (find_all page "title" "Total cash") 0)) ;;
  tctag <~ io_lift (of_result (py_index (spans row) 1)) ;;
  v <~ io_lift (float_without "," tctag) ;;
  io_ret (v * 1000).

(** Lines 70-85. *)
Definition GetTotalDebt (ticker : string) (h : header) : io Q :=
  let url :=
    ("https://finance.yahoo.com/quote/" ++ ticker ++ "/balance-sheet")%string in
  page <~ request url h ;;
  _ <~ io_lift (CheckHTTPStatusCode (status_code page)) ;;
  row <~ io_lift (of_result (py_index (find_all page "title" "Total Debt") 0)) ;;
  tdtag <~ io_lift (of_result (py_index (spans row) 1)) ;;
  v <~ io_lift (float_without "," tdtag) ;;
  io_ret (v * 1000).

(** The [aria-label] searched for on line 63. *)
Definition shares_label : string :=
  "'Shares outstanding' is taken from the most-recently filed quarterly or annual report, and 'market cap' is calculated using shares outstanding.".

(** Lines 50-68; [1e9] is [10 ^ 9]. *)
Definition GetOutstandingShares (ticker : string) (h : header) : io Q :=
  let url :=
    ("https://uk.finance.yahoo.com/quote/" ++ ticker ++ "/key-statistics")%string
  in
  page <~ request url h ;;
  _ <~ io_lift (CheckHTTPStatusCode (status_code page)) ;;
  row <~ io_lift (of_result (py_index (find_all page "aria-label" shares_label) 0)) ;;
  ostag <~ io_lift (of_result (py_index (tds row) (-1))) ;;
  v <~ io_lift (float_without "B" ostag) ;;
  io_ret (v * 1000000000).

(** The parsed command line. *)
Record args : Type :=
  { ticker : string;
    period_forwards : Z;
    period_backwards : Z;
    discount_rate : Q;
    growth_rate : Q;
    perpetual_growth_rate : Q;
    header_arg : option header }.

Definition default_header : header :=
  [("user-agent",
    "Mozilla/5.0 (Windows NT 10.0; Win64; x64) AppleWebKit/537.36 (KHTML, like Gecko) Chrome/108.0.0.0 Safari/537.36")%string].

(** The defaults of lines 159-164. *)
Definition default_args (tk : string) : args :=
  {| ticker := tk;
     period_forwards := 4;
     period_backwards := 4;
     discount_rate := 8 # 100;
     growth_rate := 15 # 100;
     perpetual_growth_rate := 25 # 1000;
     header_arg := Some default_header |}.

Definition newline : string := String (ascii_of_nat 10) EmptyString.

(** Lines 167-196, from the parsed arguments on.  [PrintedPrice v] is the
    last line printed, which shows [v]. *)
Definition main (a : args) : io unit :=
  let h :=
    match header_arg a with
    | None => default_header
    | Some h => h
    end in
  _ <~ emit (Printed (newline ++ "Calculating DCF density for: $"
                      ++ ticker a ++ newline)%string) ;;
  freeCashFlow <~ GetFreeCashFlow (ticker a) h (period_backwards a) ;;
  _ <~ emit (Printed "Free cash flows obtained.") ;;
  totalCash <~ GetTotalCash (ticker a) h ;;
  _ <~ emit (Printed "Total cash obtained.") ;;
  totalDebt <~ GetTotalDebt (ticker a) h ;;
  _ <~ emit (Printed "Total debt obtained.") ;;
  outstandingShares <~ GetOutstandingShares (ticker a) h ;;
  _ <~ emit (Printed "Outstanding shares obtained.") ;;
  discountedCashFlow <~
    io_lift (of_result
               (CalculateDCFDensity freeCashFlow (period_forwards a)
                  (growth_rate a) (perpetual_growth_rate a) (discount_rate a)
                  totalCash totalDebt outstandingShares)) ;;
  emit (PrintedPrice discountedCashFlow).

End Scraper.

(** A reading of plain integer literals ([-] and decimal digits), used to
    run the scraper on concrete pages. *)
Fixpoint digits_value (s : string) (acc : Z) : option Z :=
  match s with
  | EmptyString => Some acc
  | String c rest =>
      let d := (Z.of_nat (nat_of_ascii c) - 48)%Z in
      if ((0 <=? d) && (d <=? 9))%Z then digits_value rest (10 * acc + d)%Z
      else None
  end.

Definition integer_literal (s : string) : option Q :=
  match s with
  | EmptyString => None
  | String "-" (String c rest) =>
      option_map (fun n => inject_Z (- n)) (digits_value (String c rest) 0)
  | _ => option_map inject_Z (digits_value s 0)
  end.

(** The address requested by [GetFreeCashFlow]. *)
Definition cash_flow_url (tk : string) : string :=
  ("https://uk.finance.yahoo.com/quote/" ++ tk ++ "/cash-flow")%string.

(** What lines 115-136 make of a page when [1 <= t <= 4]: the values of the
    spans at positions [2] to [t+1] of the second match, in thousands,
    reversed. *)
Definition read_free_cash_flow (py_float : string -> option Q) (p : page)
  (t : Z) : outcome (list Q) :=
  match CheckHTTPStatusCode (status_code p) with
  | Fail e => Fail e
  | Ok _ =>
      match py_index (find_all p "title" "Free cash flow") 1 with
      | Raises e => Fail (Builtin e)
      | Returns row =>
          match float_each py_float (py_slice (spans row) 2 (t + 2)) with
          | Fail e => Fail e
          | Ok vs => Ok (rev (map (fun v => v * 1000) vs))
          end
      end
  end.

(** The addresses requested by [GetTotalCash], [GetTotalDebt] and
    [GetOutstandingShares]. *)
Definition total_cash_url (tk : string) : string :=
  ("https://uk.finance.yahoo.com/quote/" ++ tk ++ "/balance-sheet")%string.

Definition total_debt_url (tk : string) : string :=
  ("https://finance.yahoo.com/quote/" ++ tk ++ "/balance-sheet")%string.

Definition shares_url (tk : string) : string :=
  ("https://uk.finance.yahoo.com/quote/" ++ tk ++ "/key-statistics")%string.

(** The header [main] passes on. *)
Definition header_of (a : args) : header :=
  match header_arg a with
  | None => default_header
  | Some h => h
  end.

(** The first line [main] prints. *)
Definition banner (tk : string) : string :=
  (newline ++ "Calculating DCF density for: $" ++ tk ++ newline)%string.

(** The log of a run of [main] in which the four pages are read. *)
Definition scraping_log (tk : string) (h : header) : list event :=
  [Printed (banner tk);
   Requested (cash_flow_url tk) h; Printed "Free cash flows obtained.";
   Requested (total_cash_url tk) h; Printed "Total cash obtained.";
   Requested (total_debt_url tk) h; Printed "Total debt obtained.";
   Requested (shares_url tk) h; Printed "Outstanding shares obtained."].

(** A test that two outcomes of [CheckHTTPStatusCode] are the same return
    or the same [Exception]. *)
Definition same_outcome (o1 o2 : outcome unit) : bool :=
  match o1, o2 with
  | Ok _, Ok _ => true
  | Fail (Exception m1), Fail (Exception m2) => String.eqb m1 m2
  | _, _ => false
  end.

(** The outcome line 144-148 give a status code of the classes 3xx to
    5xx. *)
Definition http_failure (code : Z) : outcome unit :=
  Fail (Exception
          (if (code <? 400)%Z then "HTTP status: 3xx redirection"
           else if (code <? 500)%Z then "HTTP status: 4xx client error"
           else "HTTP status: 5xx client error")).

(** The message of the [Exception] raised for a status code of the classes
    3xx to 5xx. *)
Definition status_message (code : Z) : string :=
  if (code <? 400)%Z then "HTTP status: 3xx redirection"
  else if (code <? 500)%Z then "HTTP status: 4xx client error"
  else "HTTP status: 5xx client error".

(** How a run of [main] ends once the four pages are read: the price is
    printed, or the exception of the routine is passed on. *)
Definition valuation_end (r : result Q) : outcome unit * list event :=
  match r with
  | Returns v => (Ok tt, [PrintedPrice v])
  | Raises e => (Fail (Builtin e), [])
  end.

(** A page as the scraper expects it, used to run the program: status
    [code]; two matches of the title [Free cash flow], the second in a row
    with the spans [fcf_spans]; one row each for the cash, the debt and the
    share count. *)
Definition sample_page (code : Z) (fcf_spans : list string) : page :=
  {| status_code := code;
     find_all := fun name value =>
       if String.eqb name "title" then
         if String.eqb value "Free cash flow"
         then [ {| spans := ["Free cash flow"]%string; tds := [] |};
                {| spans := fcf_spans; tds := [] |} ]
         else if String.eqb value "Total cash"
         then [ {| spans := ["Total cash"; "110,916,000"]%string; tds := [] |} ]
         else if String.eqb value "Total Debt"
         then [ {| spans := ["Total Debt"; "28,504,000"]%string; tds := [] |} ]
         else []
       else if String.eqb name "aria-label" then
         if String.eqb value shares_label
         then [ {| spans := []; tds := ["Shares outstanding"; "12B"]%string |} ]
         else []
       else [] |}.

Definition sample_spans : list string :=
  ["Free cash flow"; "69,495,000"; "69,495,000"; "60,010,000"; "67,012,000";
   "42,843,000"]%string.

Definition sample_web (code : Z) (fcf_spans : list string)
  : string -> header -> page :=
  fun _ _ => sample_page code fcf_spans.

(** The three most recent years of [sample_spans], as [GetFreeCashFlow]
    returns them. *)
Definition sample_history : list Q :=
  [67012000000; 60010000000; 69495000000].

(** ** Results up to equality of numbers *)

Lemma result_eq_refl (r : result Q) : result_eq r r.
Proof. destruct r; simpl; reflexivity. Qed.

Lemma result_eq_sym (r1 r2 : result Q) : result_eq r1 r2 -> result_eq r2 r1.
Proof. destruct r1, r2; simpl; intros H; try contradiction; now symmetry. Qed.

Lemma result_eq_trans (r1 r2 r3 : result Q) :
  result_eq r1 r2 -> result_eq r2 r3 -> result_eq r1 r3.
Proof.
  destruct r1, r2, r3; simpl; intros H1 H2; try contradiction.
  - now rewrite H1.
  - congruence.
Qed.

(** ** Indexing *)

Lemma py_index_nat {A : Type} (l : list A) (j : nat) (x : A) :
  nth_error l j = Some x -> py_index l (Z.of_nat j) = Returns x.
Proof.
  intros H. unfold py_index.
  assert (Hj : (j < length l)%nat) by (apply nth_error_Some; congruence).
  destruct (Z.ltb_spec (Z.of_nat j) 0); [lia|].
  destruct (Z.ltb_spec (Z.of_nat j) 0); [lia|].
  destruct (Z.leb_spec (Z.of_nat (length l)) (Z.of_nat j)); [lia|].
  simpl. now rewrite Nat2Z.id, H.
Qed.

Lemma py_index_last {A : Type} (l : list A) (x : A) :
  py_index (l ++ [x]) (-1) = Returns x.
Proof.
  unfold py_index. rewrite length_app. simpl length.
  change (-1 <? 0)%Z with true. cbv iota.
  destruct (Z.ltb_spec (-1 + Z.of_nat (length l + 1)) 0); [lia|].
  destruct (Z.leb_spec (Z.of_nat (length l + 1))
              (-1 + Z.of_nat (length l + 1))); [lia|].
  cbn [orb].
  replace (Z.to_nat (-1 + Z.of_nat (length l + 1))) with (length l) by lia.
  rewrite nth_error_app2 by lia. now rewrite Nat.sub_diag.
Qed.

Lemma py_index_empty {A : Type} (i : Z) : @py_index A [] i = Raises IndexError.
Proof.
  unfold py_index. cbv zeta.
  destruct (_ || _)%bool; [reflexivity|].
  now destruct (Z.to_nat _).
Qed.

Lemma nonempty_last (l : list Q) :
  l <> [] -> exists l', l = l' ++ [last_fcf l].
Proof.
  intros H. exists (removelast l). now apply app_removelast_last.
Qed.

Lemma last_fcf_snoc (l : list Q) (x : Q) : last_fcf (l ++ [x]) = x.
Proof. unfold last_fcf. apply last_last. Qed.

Lemma py_range_length (a b : Z) : length (py_range a b) = Z.to_nat (b - a).
Proof. unfold py_range. now rewrite length_map, length_seq. Qed.

Lemma py_range_nth (a b : Z) (j : nat) :
  (j < Z.to_nat (b - a))%nat ->
  nth_error (py_range a b) j = Some (a + Z.of_nat j)%Z.
Proof.
  intros H. unfold py_range.
  rewrite nth_error_map, nth_error_seq.
  destruct (Nat.ltb_spec j (Z.to_nat (b - a))); [reflexivity | lia].
Qed.

Lemma py_range_snoc (a b : Z) :
  (a <= b)%Z -> py_range a (b + 1) = py_range a b ++ [b].
Proof.
  intros H. unfold py_range.
  replace (Z.to_nat (b + 1 - a)) with (S (Z.to_nat (b - a))) by lia.
  rewrite seq_S, map_app. simpl. do 2 f_equal. lia.
Qed.

Lemma py_range_empty (a b : Z) : (b <= a)%Z -> py_range a b = [].
Proof.
  intros H. unfold py_range. now replace (Z.to_nat (b - a)) with O by lia.
Qed.

(** ** Division and power *)

Lemma py_div_ok (x y : Q) : ~ y == 0 -> py_div x y = Returns (x / y).
Proof.
  intros H. unfold py_div.
  destruct (Qeq_bool y 0) eqn:E; [|reflexivity].
  now apply Qeq_bool_eq in E.
Qed.

Lemma py_div_zero (x y : Q) : y == 0 -> py_div x y = Raises ZeroDivisionError.
Proof.
  intros H. unfold py_div. apply Qeq_bool_iff in H. now rewrite H.
Qed.

Lemma py_pow_nonneg (x : Q) (t : Z) :
  (0 <= t)%Z -> py_pow x t = Returns (x ^ t).
Proof.
  intros H. unfold py_pow.
  destruct (Z.ltb_spec t 0); [lia | reflexivity].
Qed.

Lemma discount_ok {B : Type} (dr : Q) (t : Z) (a : Q) (k : Q -> result B) :
  ~ 1 + dr == 0 -> (0 <= t)%Z ->
  (p <- py_pow (1 + dr) t ;; d <- py_div a p ;; k d)
  = k (a / (1 + dr) ^ t).
Proof.
  intros Hdr Ht. rewrite py_pow_nonneg by assumption. cbn [bind].
  rewrite py_div_ok by (now apply Qpower_not_0). reflexivity.
Qed.

(** ** The lists after each turn of the loop *)

Lemma ffcf_upto_S (x g : Q) (n : nat) :
  ffcf_upto x g (S n) = ffcf_upto x g n ++ [proj x g n].
Proof. unfold ffcf_upto. now rewrite seq_S, map_app. Qed.

Lemma pvffcf_upto_S (x g dr : Q) (n : nat) :
  pvffcf_upto x g dr (S n) = pvffcf_upto x g dr n ++ [proj_pv x g dr n].
Proof. unfold pvffcf_upto. now rewrite seq_S, map_app. Qed.

Lemma ffcf_upto_nth (x g : Q) (n k : nat) :
  (k < n)%nat -> nth_error (ffcf_upto x g n) k = Some (proj x g k).
Proof.
  intros H. unfold ffcf_upto. rewrite nth_error_map, nth_error_seq.
  destruct (Nat.ltb_spec k n); [reflexivity | lia].
Qed.

Lemma ffcf_upto_length (x g : Q) (n : nat) : length (ffcf_upto x g n) = n.
Proof. unfold ffcf_upto. now rewrite length_map, length_seq. Qed.

Section Run.

Variables (pf : Z) (g pg dr : Q).

Lemma tlist_nth (j : nat) :
  (Z.of_nat j <= pf)%Z ->
  py_index (tlist pf) (Z.of_nat j) = Returns (1 + Z.of_nat j)%Z.
Proof.
  intros H. apply py_index_nat. unfold tlist. apply py_range_nth. lia.
Qed.

Lemma tlist_last :
  (0 <= pf)%Z -> py_index (tlist pf) (-1) = Returns (pf + 1)%Z.
Proof.
  intros H. unfold tlist.
  replace (pf + 2)%Z with (pf + 1 + 1)%Z by lia.
  rewrite py_range_snoc by lia. apply py_index_last.
Qed.

Lemma tlist_negative : (pf < 0)%Z -> tlist pf = [].
Proof. intros H. unfold tlist. apply py_range_empty. lia. Qed.

Lemma first_year_ok (l : list Q) (x : Q) :
  (0 <= pf)%Z -> ~ 1 + dr == 0 ->
  first_year (l ++ [x]) pf g dr
  = Returns (ffcf_upto x g 1, pvffcf_upto x g dr 1).
Proof.
  intros Hpf Hdr. unfold first_year.
  rewrite py_index_last. cbn [bind app].
  rewrite (py_index_nat _ 0 (x * (1 + g))) by reflexivity.
  change (py_index (tlist pf) 0) with (py_index (tlist pf) (Z.of_nat 0)).
  rewrite tlist_nth by (simpl; lia). cbn [bind].
  rewrite discount_ok by (trivial; simpl; lia). reflexivity.
Qed.

Lemma first_year_zero_discount (l : list Q) (x : Q) :
  (0 <= pf)%Z -> 1 + dr == 0 ->
  first_year (l ++ [x]) pf g dr = Raises ZeroDivisionError.
Proof.
  intros Hpf Hdr. unfold first_year.
  rewrite py_index_last. cbn [bind app].
  rewrite (py_index_nat _ 0 (x * (1 + g))) by reflexivity.
  change (py_index (tlist pf) 0) with (py_index (tlist pf) (Z.of_nat 0)).
  rewrite tlist_nth by (simpl; lia). cbn [bind].
  rewrite py_pow_nonneg by (simpl; lia). cbn [bind].
  rewrite py_div_zero; [reflexivity|].
  change (1 + Z.of_nat 0)%Z with 1%Z. now rewrite Qpower_1_r.
Qed.

Lemma first_year_negative_horizon (l : list Q) (x : Q) :
  (pf < 0)%Z -> first_year (l ++ [x]) pf g dr = Raises IndexError.
Proof.
  intros Hpf. unfold first_year.
  rewrite py_index_last. cbn [bind app].
  rewrite (py_index_nat _ 0 (x * (1 + g))) by reflexivity. cbn [bind].
  rewrite tlist_negative by assumption. now rewrite py_index_empty.
Qed.

Lemma loop_body_ok (x : Q) (a : nat) :
  (Z.of_nat (S a) <= pf)%Z -> ~ 1 + dr == 0 ->
  loop_body pf g dr (1 + Z.of_nat a)
    (ffcf_upto x g (S a), pvffcf_upto x g dr (S a))
  = Returns (ffcf_upto x g (S (S a)), pvffcf_upto x g dr (S (S a))).
Proof.
  intros Hpf Hdr. unfold loop_body.
  replace (1 + Z.of_nat a - 1)%Z with (Z.of_nat a) by lia.
  rewrite (py_index_nat _ a (proj x g a)) by (apply ffcf_upto_nth; lia).
  cbn [bind].
  change (proj x g a * (1 + g)) with (proj x g (S a)).
  rewrite <- ffcf_upto_S.
  replace (1 + Z.of_nat a)%Z with (Z.of_nat (S a)) by lia.
  rewrite (py_index_nat _ (S a) (proj x g (S a)))
    by (apply ffcf_upto_nth; lia).
  cbn [bind]. rewrite tlist_nth by assumption. cbn [bind].
  rewrite discount_ok by (trivial; lia).
  cbn [bind]. now rewrite (pvffcf_upto_S x g dr (S a)).
Qed.

Lemma loop_ok (x : Q) (n a : nat) :
  (Z.of_nat (a + n) <= pf)%Z -> ~ 1 + dr == 0 ->
  for_each (loop_body pf g dr)
    (map (fun k => (1 + Z.of_nat k)%Z) (seq a n))
    (ffcf_upto x g (S a), pvffcf_upto x g dr (S a))
  = Returns (ffcf_upto x g (S (a + n)), pvffcf_upto x g dr (S (a + n))).
Proof.
  revert a. induction n as [|n IH]; intros a Hpf Hdr.
  - simpl. now rewrite Nat.add_0_r.
  - cbn [seq map for_each].
    rewrite loop_body_ok by (trivial; lia). cbn [bind].
    rewrite IH by (trivial; lia).
    now replace (S a + n)%nat with (a + S n)%nat by lia.
Qed.

Lemma explicit_projection_ok (l : list Q) (x : Q) :
  (0 <= pf)%Z -> ~ 1 + dr == 0 ->
  explicit_projection (l ++ [x]) pf g dr
  = Returns (ffcf_upto x g (years pf), pvffcf_upto x g dr (years pf)).
Proof.
  intros Hpf Hdr. unfold explicit_projection.
  rewrite first_year_ok by assumption. cbn [bind].
  unfold py_range. rewrite loop_ok by (trivial; lia).
  unfold years. now replace (S (0 + Z.to_nat (pf - 1))) with
    (Z.to_nat (Z.max pf 1)) by lia.
Qed.

Lemma years_pos : exists m, years pf = S m.
Proof.
  unfold years. exists (Z.to_nat (Z.max pf 1) - 1)%nat. lia.
Qed.

Lemma terminal_ok (x : Q) :
  (0 <= pf)%Z -> ~ 1 + dr == 0 -> ~ dr - pg == 0 ->
  terminal pf pg dr (ffcf_upto x g (years pf), pvffcf_upto x g dr (years pf))
  = Returns
      (ffcf_upto x g (years pf)
         ++ [proj x g (years pf - 1) * (1 + pg) / (dr - pg)],
       pvffcf_upto x g dr (years pf)
         ++ [proj x g (years pf - 1) * (1 + pg) / (dr - pg)
             / (1 + dr) ^ (pf + 1)]).
Proof.
  intros Hpf Hdr Hpg. unfold terminal.
  destruct years_pos as [m Hm]. rewrite Hm.
  replace (S m - 1)%nat with m by lia.
  rewrite (ffcf_upto_S x g m) at 1. rewrite py_index_last. cbn [bind].
  rewrite py_div_ok by assumption. cbn [bind].
  rewrite py_index_last. cbn [bind].
  rewrite tlist_last by assumption. cbn [bind].
  rewrite discount_ok by (trivial; lia). reflexivity.
Qed.

Lemma terminal_zero_spread (x : Q) :
  dr - pg == 0 ->
  terminal pf pg dr (ffcf_upto x g (years pf), pvffcf_upto x g dr (years pf))
  = Raises ZeroDivisionError.
Proof.
  intros Hpg. unfold terminal.
  destruct years_pos as [m Hm]. rewrite Hm.
  rewrite (ffcf_upto_S x g m) at 1. rewrite py_index_last. cbn [bind].
  now rewrite py_div_zero.
Qed.


(** The routine on a non-empty history, case by case. *)
Lemma CalculateDCFDensity_outcome (l : list Q) (x cash debt os : Q) :
  CalculateDCFDensity (l ++ [x]) pf g pg dr cash debt os
  = dcf_outcome x pf g pg dr cash debt os.
Proof.
  unfold CalculateDCFDensity, equity_value, cash_flows, dcf_outcome.
  destruct (Z.ltb_spec pf 0) as [Hpf|Hpf].
  { unfold explicit_projection.
    now rewrite first_year_negative_horizon. }
  destruct (Qeq_bool (1 + dr) 0) eqn:Edr.
  { apply Qeq_bool_eq in Edr. unfold explicit_projection.
    now rewrite first_year_zero_discount. }
  apply Qeq_bool_neq in Edr.
  rewrite explicit_projection_ok by assumption. cbn [bind].
  destruct (Qeq_bool (dr - pg) 0) eqn:Epg.
  { apply Qeq_bool_eq in Epg. now rewrite terminal_zero_spread. }
  apply Qeq_bool_neq in Epg.
  rewrite terminal_ok by assumption. cbn [bind].
  unfold py_div, dcf_exact, equity_exact. now destruct (Qeq_bool os 0).
Qed.

End Run.

Lemma CalculateDCFDensity_nonempty (fcf : list Q) (pf : Z)
  (g pg dr cash debt os : Q) :
  fcf <> [] ->
  CalculateDCFDensity fcf pf g pg dr cash debt os
  = dcf_outcome (last_fcf fcf) pf g pg dr cash debt os.
Proof.
  intros H. destruct (nonempty_last fcf H) as [l Hl].
  rewrite Hl at 1. apply CalculateDCFDensity_outcome.
Qed.

Lemma CalculateDCFDensity_empty (pf : Z) (g pg dr cash debt os : Q) :
  CalculateDCFDensity [] pf g pg dr cash debt os = Raises IndexError.
Proof. reflexivity. Qed.

(** ** From the lists to the closed form *)

Lemma Qpower_succ (a : Q) (k : nat) :
  a ^ Z.of_nat (S k) == a ^ Z.of_nat k * a.
Proof.
  replace (Z.of_nat (S k)) with (Z.of_nat k + 1)%Z by lia.
  rewrite Qpower_plus' by lia. now rewrite Qpower_1_r.
Qed.

Lemma proj_power (x g : Q) (k : nat) :
  proj x g k == x * (1 + g) ^ Z.of_nat (S k).
Proof.
  induction k as [|k IH].
  - simpl. reflexivity.
  - cbn [proj]. rewrite IH, (Qpower_succ (1 + g) (S k)). ring.
Qed.

Lemma proj_pv_explicit (x g dr : Q) (k : nat) :
  proj_pv x g dr k == explicit_pv x g dr (S k).
Proof.
  unfold proj_pv, explicit_pv. rewrite proj_power.
  now replace (1 + Z.of_nat k)%Z with (Z.of_nat (S k)) by lia.
Qed.

Lemma py_sum_snoc (l : list Q) (d : Q) : py_sum (l ++ [d]) = py_sum l + d.
Proof. unfold py_sum. now rewrite fold_left_app. Qed.

Lemma py_sum_pvffcf (x g dr : Q) (n : nat) :
  py_sum (pvffcf_upto x g dr n) == sum_from_1 (explicit_pv x g dr) n.
Proof.
  induction n as [|n IH].
  - reflexivity.
  - rewrite pvffcf_upto_S, py_sum_snoc. cbn [sum_from_1].
    now rewrite IH, proj_pv_explicit.
Qed.

Lemma dcf_exact_value (x : Q) (pf : Z) (g pg dr cash debt os : Q) :
  dcf_exact x pf g pg dr cash debt os
  == dcf_value x (years pf) (pf + 1) g pg dr cash debt os.
Proof.
  unfold dcf_exact, equity_exact, dcf_value, terminal_pv. cbv zeta.
  rewrite py_sum_snoc, py_sum_pvffcf, proj_power.
  destruct (years_pos pf) as [m Hm]. rewrite Hm.
  replace (S (S m - 1)) with (S m) by lia.
  unfold Qdiv. rewrite Qinv_mult_distr. ring.
Qed.

Lemma years_valid (pf : Z) : (1 <= pf)%Z -> years pf = Z.to_nat pf.
Proof. intros H. unfold years. now rewrite Z.max_l by lia. Qed.

Lemma dcf_exact_closed_form (x : Q) (pf : Z) (g pg dr cash debt os : Q) :
  (1 <= pf)%Z ->
  dcf_exact x pf g pg dr cash debt os
  == closed_form x pf g pg dr cash debt os.
Proof.
  intros H. rewrite dcf_exact_value. unfold closed_form.
  now rewrite years_valid.
Qed.

(** ** Dependence on the seed *)

Lemma sum_from_1_ext (f h : nat -> Q) (n : nat) :
  (forall t, f t == h t) -> sum_from_1 f n == sum_from_1 h n.
Proof.
  intros H. induction n as [|n IH]; [reflexivity|].
  cbn [sum_from_1]. now rewrite IH, H.
Qed.

Lemma dcf_value_compat (x y : Q) (n : nat) (e : Z) (g pg dr cash debt os : Q) :
  x == y ->
  dcf_value x n e g pg dr cash debt os == dcf_value y n e g pg dr cash debt os.
Proof.
  intros H. unfold dcf_value, terminal_pv.
  rewrite (sum_from_1_ext (explicit_pv x g dr) (explicit_pv y g dr)).
  - now rewrite H.
  - intros t. unfold explicit_pv. now rewrite H.
Qed.

Lemma sum_from_1_scale (lam x g dr : Q) (n : nat) :
  sum_from_1 (explicit_pv (lam * x) g dr) n
  == lam * sum_from_1 (explicit_pv x g dr) n.
Proof.
  induction n as [|n IH].
  - simpl. ring.
  - cbn [sum_from_1]. rewrite IH. unfold explicit_pv, Qdiv. ring.
Qed.

Lemma dcf_value_scale (lam x : Q) (n : nat) (e : Z) (g pg dr cash debt os : Q) :
  dcf_value (lam * x) n e g pg dr (lam * cash) (lam * debt) os
  == lam * dcf_value x n e g pg dr cash debt os.
Proof.
  unfold dcf_value, terminal_pv. rewrite sum_from_1_scale.
  unfold Qdiv. ring.
Qed.

Lemma dcf_outcome_compat (x y : Q) (pf : Z) (g pg dr cash debt os : Q) :
  x == y ->
  result_eq (dcf_outcome x pf g pg dr cash debt os)
            (dcf_outcome y pf g pg dr cash debt os).
Proof.
  intros H. unfold dcf_outcome.
  destruct (pf <? 0)%Z; [reflexivity|].
  destruct (Qeq_bool (1 + dr) 0); [reflexivity|].
  destruct (Qeq_bool (dr - pg) 0); [reflexivity|].
  destruct (Qeq_bool os 0); [reflexivity|].
  cbn [result_eq]. rewrite !dcf_exact_value. now apply dcf_value_compat.
Qed.

Lemma dcf_outcome_scale (lam x : Q) (pf : Z) (g pg dr cash debt os : Q) :
  result_eq (dcf_outcome (lam * x) pf g pg dr (lam * cash) (lam * debt) os)
            (scale_result lam (dcf_outcome x pf g pg dr cash debt os)).
Proof.
  unfold dcf_outcome.
  destruct (pf <? 0)%Z; [reflexivity|].
  destruct (Qeq_bool (1 + dr) 0); [reflexivity|].
  destruct (Qeq_bool (dr - pg) 0); [reflexivity|].
  destruct (Qeq_bool os 0); [reflexivity|].
  cbn [result_eq scale_result]. rewrite !dcf_exact_value.
  apply dcf_value_scale.
Qed.

(** The routine returns the closed form whenever no divisor vanishes. *)
Lemma CalculateDCFDensity_returns (fcf : list Q) (pf : Z)
  (g pg dr cash debt os : Q) :
  fcf <> [] -> (0 <= pf)%Z ->
  ~ 1 + dr == 0 -> ~ dr == pg -> ~ os == 0 ->
  CalculateDCFDensity fcf pf g pg dr cash debt os
  = Returns (dcf_exact (last_fcf fcf) pf g pg dr cash debt os).
Proof.
  intros Hne Hpf Hdr Hpg Hos.
  rewrite CalculateDCFDensity_nonempty by assumption. unfold dcf_outcome.
  destruct (Z.ltb_spec pf 0); [lia|].
  destruct (Qeq_bool (1 + dr) 0) eqn:E1;
    [now apply Qeq_bool_eq in E1|].
  destruct (Qeq_bool (dr - pg) 0) eqn:E2.
  { apply Qeq_bool_eq in E2. exfalso. apply Hpg. lra. }
  destruct (Qeq_bool os 0) eqn:E3; [now apply Qeq_bool_eq in E3|].
  reflexivity.
Qed.

(** ** Order and division *)



(** A call that returns has a non-zero discount factor. *)
Lemma returns_discount_factor (fcf : list Q) (pf : Z)
  (g pg dr cash debt os v : Q) :
  fcf <> [] -> (0 <= pf)%Z ->
  CalculateDCFDensity fcf pf g pg dr cash debt os = Returns v ->
  ~ 1 + dr == 0.
Proof.
  intros Hne Hpf Hv Hdr.
  rewrite CalculateDCFDensity_nonempty in Hv by assumption.
  unfold dcf_outcome in Hv.
  destruct (pf <? 0)%Z; [discriminate Hv|].
  apply Qeq_bool_iff in Hdr. rewrite Hdr in Hv. discriminate Hv.
Qed.

(** On arguments where no divisor vanishes the returned number is the
    closed form. *)
Lemma returns_closed_form (fcf : list Q) (pf : Z) (g pg dr cash debt os : Q) :
  fcf <> [] -> (1 <= pf)%Z -> ~ 1 + dr == 0 -> ~ dr == pg -> ~ os == 0 ->
  exists v,
    CalculateDCFDensity fcf pf g pg dr cash debt os = Returns v /\
    v == closed_form (last_fcf fcf) pf g pg dr cash debt os.
Proof.
  intros Hne Hpf Hdr Hpg Hos.
  exists (dcf_exact (last_fcf fcf) pf g pg dr cash debt os). split.
  - apply CalculateDCFDensity_returns; trivial; lia.
  - now apply dcf_exact_closed_form.
Qed.

(** ** Discount factors in range *)

Lemma discount_safe_nonzero (dr : Q) (pf : Z) :
  (0 <= pf)%Z -> discount_safe dr pf -> ~ 1 + dr == 0.
Proof.
  intros Hpf [Hlow _] Hz.
  rewrite Hz, Qpower_0 in Hlow by lia.
  assert (Hpos : 0 < (1 # 2) ^ 1000) by (now apply Qpower_0_lt).
  change (Qabs 0) with 0 in Hlow. exact (Qlt_not_le _ _ Hpos Hlow).
Qed.

(** Outside that range the program leaves exact arithmetic: with [1 +
    discountRate = 2 ^ 700] the power of line 40 overflows, and with [1 +
    discountRate = 2 ^ -30] and forty forward periods the power of line 37
    becomes [0.0] although no divisor of the closed form is zero. *)
Lemma CalculateDCFDensity64_out_of_range :
  CalculateDCFDensity64 [1%float] 1 0 0 (0x1p700 - 1) 0 0 1
  = Raises OverflowError /\
  CalculateDCFDensity64 [1%float] 40 0 0 (0x1p-30 - 1) 0 0 1
  = Raises ZeroDivisionError.
Proof. split; vm_compute; reflexivity. Qed.

(** ** The claims *)

(** Side conditions on concrete numbers. *)
Ltac concrete :=
  solve [ discriminate | lia | reflexivity
        | vm_compute; reflexivity
        | vm_compute; discriminate
        | vm_compute; intros; discriminate
        | intros; vm_compute; discriminate
        | split; vm_compute; discriminate ].

(** C1 (as amended): for a non-empty history, [forwardPeriods >= 1],
    [discountRate <> perpetualGrowthRate], [outstandingShares <> 0] and
    discount factors [(1 + discountRate) ** t] that binary64 holds (which
    excludes [1 + discountRate = 0]), the routine returns, and up to
    rounding, that is in exact arithmetic, the value returned is the closed
    form: the sum of the [forwardPeriods] discounted projected cash flows,
    plus the terminal value discounted at horizon [forwardPeriods + 1], plus
    cash, minus debt, all divided by the number of shares. *)
Theorem CalculateDCFDensity_closed_form (fcf : list Q) (pf : Z)
  (g pg dr cash debt os : Q) :
  fcf <> [] -> (1 <= pf)%Z -> ~ dr == pg -> ~ os == 0 -> discount_safe dr pf ->
  exists v,
    CalculateDCFDensity fcf pf g pg dr cash debt os = Returns v /\
    v == closed_form (last_fcf fcf) pf g pg dr cash debt os.
Proof.
  intros Hne Hpf Hpg Hos Hsafe. apply returns_closed_form; trivial.
  apply (discount_safe_nonzero dr pf); [lia | assumption].
Qed.

Lemma CalculateDCFDensity_closed_form_witness :
  exists v,
    CalculateDCFDensity [50; 100] 3 (1#10) (2#100) (8#100) 5 7 10 = Returns v /\
    v == closed_form 100 3 (1#10) (2#100) (8#100) 5 7 10.
Proof.
  apply (CalculateDCFDensity_closed_form
           [50; 100] 3 (1#10) (2#100) (8#100) 5 7 10); concrete.
Defined.

(** C1 as stated fails where [1 + discountRate = 0]: the first discount
    factor is zero and the division of line 32 raises. *)
Lemma CalculateDCFDensity_zero_discount_factor :
  [100] <> [] /\ (1 <= 1)%Z /\ ~ -1 == 0 /\ ~ 10 == 0 /\
  CalculateDCFDensity [100] 1 0 0 (-1) 0 0 10 = Raises ZeroDivisionError /\
  ~ exists v,
      CalculateDCFDensity [100] 1 0 0 (-1) 0 0 10 = Returns v /\
      v == closed_form (last_fcf [100]) 1 0 0 (-1) 0 0 10.
Proof.
  repeat split; try concrete.
  intros [v [H _]]. discriminate H.
Qed.

(** C2: on the history [[100]] with one forward period, no growth, perpetual
    growth 0.02, discount rate 0.08, no cash, no debt and 10 shares, the
    projected cash flow is 100, the terminal value is 1700, their present
    values are 100/1.08 (92.59...) and 1700/1.08^2 (1457.47...), the equity
    value is 1550.06... and the routine returns 155.006... per share. *)
Theorem CalculateDCFDensity_example :
  exists p1 tv d1 d2 e v,
    cash_flows [100] 1 0 (2#100) (8#100) = Returns ([p1; tv], [d1; d2]) /\
    p1 == 100 /\ tv == 1700 /\
    d1 == 100 / (108#100) /\ d2 == 1700 / (108#100) ^ 2 /\
    (9259#100) <= d1 /\ d1 < (9260#100) /\
    (145747#100) <= d2 /\ d2 < (145748#100) /\
    equity_value [100] 1 0 (2#100) (8#100) 0 0 = Returns e /\
    (155006#100) <= e /\ e < (155007#100) /\
    CalculateDCFDensity [100] 1 0 (2#100) (8#100) 0 0 10 = Returns v /\
    v == 113000 # 729 /\
    (155006#1000) <= v /\ v < (155007#1000).
Proof.
  do 6 eexists.
  split; [vm_compute; reflexivity|].
  repeat split; concrete.
Qed.

(** C4 (as amended): with an empty history the routine fails whatever the
    other arguments are; the failure is the [IndexError] raised by
    [fcf[-1]] on line 29. *)
Theorem CalculateDCFDensity_empty_history (pf : Z) (g pg dr cash debt os : Q) :
  CalculateDCFDensity [] pf g pg dr cash debt os = Raises IndexError.
Proof. apply CalculateDCFDensity_empty. Qed.

(** C4 as stated fails: the error raised on an empty history is not
    [InsufficientData]. *)
Lemma CalculateDCFDensity_empty_not_InsufficientData :
  CalculateDCFDensity [] 1 0 (2#100) (8#100) 0 0 10 <> Raises InsufficientData.
Proof. concrete. Qed.

(** C3 (as amended): with a non-empty history and [forwardPeriods >= 1],
    equal discount and perpetual growth rates never let the routine return.
    When the discount factors are ones binary64 holds, or [1 + discountRate]
    is zero, what is raised is [ZeroDivisionError], by a division in the
    middle of the computation: in the first case the explicit projection of
    lines 25-37 has been computed before the division of line 39 raises.
    With [discountRate < perpetualGrowthRate], such discount factors and a
    non-zero share count, nothing fails and the closed form is returned. *)
Theorem CalculateDCFDensity_rate_order (fcf : list Q) (pf : Z)
  (g pg dr cash debt os : Q) :
  fcf <> [] -> (1 <= pf)%Z -> dr <= pg ->
  (dr == pg ->
   (forall v, CalculateDCFDensity fcf pf g pg dr cash debt os <> Returns v)
   /\ (1 + dr == 0 \/ discount_safe dr pf ->
       CalculateDCFDensity fcf pf g pg dr cash debt os
       = Raises ZeroDivisionError)
   /\ (discount_safe dr pf ->
       exists st, explicit_projection fcf pf g dr = Returns st))
  /\ (dr < pg -> discount_safe dr pf -> ~ os == 0 ->
      exists v,
        CalculateDCFDensity fcf pf g pg dr cash debt os = Returns v /\
        v == closed_form (last_fcf fcf) pf g pg dr cash debt os).
Proof.
  intros Hne Hpf Hle. split.
  - intros Heq.
    assert (Hzde : CalculateDCFDensity fcf pf g pg dr cash debt os
                   = Raises ZeroDivisionError).
    { rewrite CalculateDCFDensity_nonempty by assumption. unfold dcf_outcome.
      destruct (Z.ltb_spec pf 0); [lia|].
      destruct (Qeq_bool (1 + dr) 0); [reflexivity|].
      destruct (Qeq_bool (dr - pg) 0) eqn:E; [reflexivity|].
      apply Qeq_bool_neq in E. exfalso. apply E. lra. }
    split; [|split].
    + intros v. rewrite Hzde. discriminate.
    + intros _. exact Hzde.
    + intros Hsafe. destruct (nonempty_last fcf Hne) as [l Hl]. rewrite Hl.
      eexists. apply explicit_projection_ok; [lia|].
      apply (discount_safe_nonzero dr pf); [lia | assumption].
  - intros Hlt Hsafe Hos.
    apply returns_closed_form; trivial; [|lra].
    apply (discount_safe_nonzero dr pf); [lia | assumption].
Qed.

Lemma CalculateDCFDensity_rate_order_witness :
  (CalculateDCFDensity [100] 1 0 (8#100) (8#100) 0 0 10
   = Raises ZeroDivisionError
   /\ exists st, explicit_projection [100] 1 0 (8#100) = Returns st)
  /\ exists v,
       CalculateDCFDensity [100] 1 0 (9#100) (8#100) 0 0 10 = Returns v /\
       v == closed_form 100 1 0 (9#100) (8#100) 0 0 10.
Proof.
  split.
  - pose proof (CalculateDCFDensity_rate_order
                  [100] 1 0 (8#100) (8#100) 0 0 10
                  ltac:(concrete) ltac:(concrete) ltac:(concrete))
      as [Heq _].
    destruct (Heq ltac:(concrete)) as (_ & H1 & H2).
    split; [apply H1; right; concrete | apply H2; concrete].
  - apply (CalculateDCFDensity_rate_order
             [100] 1 0 (9#100) (8#100) 0 0 10); concrete.
Defined.

(** C3 as stated fails: with [discountRate < perpetualGrowthRate] the routine
    returns a number, and with equal rates the error is not
    [InvalidModelParameters]. *)
Lemma CalculateDCFDensity_misordered_rates_return :
  (8#100) <= (9#100) /\
  CalculateDCFDensity [100] 1 0 (9#100) (8#100) 0 0 10
  = Returns (-116553600000000 # 125971200000) /\
  CalculateDCFDensity [100] 1 0 (9#100) (8#100) 0 0 10
  <> Raises InvalidModelParameters /\
  CalculateDCFDensity [100] 1 0 (8#100) (8#100) 0 0 10
  <> Raises InvalidModelParameters.
Proof. repeat split; concrete. Qed.

(** C5 (as amended): with [outstandingShares = 0] the routine never returns,
    whatever the other arguments are; on a non-empty history with
    [forwardPeriods >= 1] and discount factors binary64 holds (or [1 +
    discountRate = 0]) what is raised is [ZeroDivisionError], on otherwise
    valid arguments by the last division, line 46.  With a negative share
    count and otherwise valid arguments nothing fails and the closed form is
    returned. *)
Theorem CalculateDCFDensity_share_count (fcf : list Q) (pf : Z)
  (g pg dr cash debt os : Q) :
  os <= 0 ->
  (os == 0 ->
   (forall v, CalculateDCFDensity fcf pf g pg dr cash debt os <> Returns v)
   /\ (fcf <> [] -> (1 <= pf)%Z -> 1 + dr == 0 \/ discount_safe dr pf ->
       CalculateDCFDensity fcf pf g pg dr cash debt os
       = Raises ZeroDivisionError))
  /\ (os < 0 -> fcf <> [] -> (1 <= pf)%Z -> discount_safe dr pf ->
      ~ dr == pg ->
      exists v,
        CalculateDCFDensity fcf pf g pg dr cash debt os = Returns v /\
        v == closed_form (last_fcf fcf) pf g pg dr cash debt os).
Proof.
  intros Hle. split.
  - intros Hos.
    assert (Hout : forall x,
      dcf_outcome x pf g pg dr cash debt os = Raises IndexError \/
      dcf_outcome x pf g pg dr cash debt os = Raises ZeroDivisionError).
    { intros x. unfold dcf_outcome.
      destruct (pf <? 0)%Z; [now left|].
      destruct (Qeq_bool (1 + dr) 0); [now right|].
      destruct (Qeq_bool (dr - pg) 0); [now right|].
      destruct (Qeq_bool os 0) eqn:E; [now right|].
      now apply Qeq_bool_neq in E. }
    split.
    + intros v. destruct fcf as [|a l] eqn:Ef; [discriminate|].
      rewrite CalculateDCFDensity_nonempty by discriminate.
      destruct (Hout (last_fcf (a :: l))) as [H|H]; rewrite H; discriminate.
    + intros Hne Hpf _. rewrite CalculateDCFDensity_nonempty by assumption.
      destruct (Hout (last_fcf fcf)) as [H|H]; [|exact H].
      unfold dcf_outcome in *.
      destruct (Z.ltb_spec pf 0); [lia|].
      destruct (Qeq_bool (1 + dr) 0); [discriminate H|].
      destruct (Qeq_bool (dr - pg) 0); [discriminate H|].
      destruct (Qeq_bool os 0); discriminate H.
  - intros Hlt Hne Hpf Hsafe Hpg.
    apply returns_closed_form; trivial; [|lra].
    apply (discount_safe_nonzero dr pf); [lia | assumption].
Qed.

Lemma CalculateDCFDensity_share_count_witness :
  CalculateDCFDensity [100] 1 0 (2#100) (8#100) 0 0 0
  = Raises ZeroDivisionError
  /\ exists v,
       CalculateDCFDensity [100] 1 0 (2#100) (8#100) 0 0 (-10) = Returns v /\
       v == closed_form 100 1 0 (2#100) (8#100) 0 0 (-10).
Proof.
  split.
  - apply (CalculateDCFDensity_share_count
             [100] 1 0 (2#100) (8#100) 0 0 0); try concrete.
    right. concrete.
  - apply (CalculateDCFDensity_share_count
             [100] 1 0 (2#100) (8#100) 0 0 (-10)); concrete.
Defined.

(** C5 as stated fails: a negative share count is not rejected, and a zero
    share count does not raise [InvalidModelParameters]. *)
Lemma CalculateDCFDensity_negative_shares_return :
  -10 <= 0 /\
  CalculateDCFDensity [100] 1 0 (2#100) (8#100) 0 0 (-10)
  = Returns (-117158400000000 # 755827200000) /\
  CalculateDCFDensity [100] 1 0 (2#100) (8#100) 0 0 (-10)
  <> Raises InvalidModelParameters /\
  CalculateDCFDensity [100] 1 0 (2#100) (8#100) 0 0 0
  <> Raises InvalidModelParameters.
Proof. repeat split; concrete. Qed.

(** C6 (as amended): a negative [forwardPeriods] makes the routine fail with
    [IndexError] whatever the other arguments are ([tlist] is empty and
    [tlist[0]] raises on line 32).  [forwardPeriods = 0] is not rejected: on
    otherwise valid arguments the routine returns the value of one projected
    year with the terminal value discounted at horizon 1. *)
Theorem CalculateDCFDensity_horizon (fcf : list Q) (pf : Z)
  (g pg dr cash debt os : Q) :
  (pf < 1)%Z ->
  ((pf < 0)%Z ->
   CalculateDCFDensity fcf pf g pg dr cash debt os = Raises IndexError)
  /\ (pf = 0%Z -> fcf <> [] -> ~ 1 + dr == 0 -> ~ dr == pg -> ~ os == 0 ->
      exists v,
        CalculateDCFDensity fcf pf g pg dr cash debt os = Returns v /\
        v == dcf_value (last_fcf fcf) 1 1 g pg dr cash debt os).
Proof.
  intros Hlt. split.
  - intros Hneg. destruct fcf as [|a l] eqn:Ef; [reflexivity|].
    rewrite CalculateDCFDensity_nonempty by discriminate. unfold dcf_outcome.
    destruct (Z.ltb_spec pf 0); [reflexivity | lia].
  - intros Hz Hne Hdr Hpg Hos. subst pf.
    exists (dcf_exact (last_fcf fcf) 0 g pg dr cash debt os). split.
    + apply CalculateDCFDensity_returns; trivial; lia.
    + apply dcf_exact_value.
Qed.

Lemma CalculateDCFDensity_horizon_witness :
  CalculateDCFDensity [100] (-1) 0 (2#100) (8#100) 0 0 10 = Raises IndexError
  /\ exists v,
       CalculateDCFDensity [100] 0 0 (2#100) (8#100) 0 0 10 = Returns v /\
       v == dcf_value 100 1 1 0 (2#100) (8#100) 0 0 10.
Proof.
  split.
  - apply (CalculateDCFDensity_horizon
             [100] (-1) 0 (2#100) (8#100) 0 0 10); concrete.
  - apply (CalculateDCFDensity_horizon
             [100] 0 0 (2#100) (8#100) 0 0 10); concrete.
Defined.

(** C6 as stated fails: [forwardPeriods = 0] returns a number, and the error
    of a negative horizon is not [InvalidModelParameters]. *)
Lemma CalculateDCFDensity_zero_horizon_returns :
  (0 < 1)%Z /\
  CalculateDCFDensity [100] 0 0 (2#100) (8#100) 0 0 10
  = Returns (1166400000000 # 6998400000) /\
  CalculateDCFDensity [100] 0 0 (2#100) (8#100) 0 0 10
  <> Raises InvalidModelParameters /\
  CalculateDCFDensity [100] (-1) 0 (2#100) (8#100) 0 0 10
  <> Raises InvalidModelParameters.
Proof. repeat split; concrete. Qed.




(** C8: two non-empty histories with equal last elements give the same
    result, all other arguments being the same. *)
Theorem CalculateDCFDensity_last_only (fcf1 fcf2 : list Q) (pf : Z)
  (g pg dr cash debt os : Q) :
  fcf1 <> [] -> fcf2 <> [] -> last_fcf fcf1 == last_fcf fcf2 ->
  result_eq (CalculateDCFDensity fcf1 pf g pg dr cash debt os)
            (CalculateDCFDensity fcf2 pf g pg dr cash debt os).
Proof.
  intros H1 H2 Hlast.
  rewrite !CalculateDCFDensity_nonempty by assumption.
  now apply dcf_outcome_compat.
Qed.

Lemma CalculateDCFDensity_last_only_witness :
  result_eq
    (CalculateDCFDensity [30; -20; 100] 3 (1#10) (2#100) (8#100) 5 7 10)
    (CalculateDCFDensity [7; 200 # 2] 3 (1#10) (2#100) (8#100) 5 7 10).
Proof.
  apply (CalculateDCFDensity_last_only
           [30; -20; 100] [7; 200 # 2] 3 (1#10) (2#100) (8#100) 5 7 10);
    concrete.
Defined.

(** C9: on valid arguments with [growthRate = 0] the explicit projection is
    flat: it has [forwardPeriods] values, each equal to the last element of
    the history.  The projection is produced as soon as the discount factor
    [1 + discountRate] is not zero. *)
Theorem explicit_projection_flat (fcf : list Q) (pf : Z) (g dr : Q) :
  fcf <> [] -> (1 <= pf)%Z -> g == 0 ->
  (~ 1 + dr == 0 ->
   exists st, explicit_projection fcf pf g dr = Returns st)
  /\ forall ffcf pvffcf,
       explicit_projection fcf pf g dr = Returns (ffcf, pvffcf) ->
       length ffcf = Z.to_nat pf /\
       Forall (fun v => v == last_fcf fcf) ffcf.
Proof.
  intros Hne Hpf Hg.
  destruct (nonempty_last fcf Hne) as [l Hl].
  split.
  { intros Hdr. rewrite Hl. eexists.
    apply explicit_projection_ok; trivial; lia. }
  intros ffcf pvffcf Hrun. rewrite Hl in Hrun at 1.
  destruct (Qeq_bool (1 + dr) 0) eqn:E.
  { apply Qeq_bool_eq in E. unfold explicit_projection in Hrun.
    rewrite first_year_zero_discount in Hrun by (trivial; lia).
    discriminate Hrun. }
  apply Qeq_bool_neq in E.
  rewrite explicit_projection_ok in Hrun by (trivial; lia).
  injection Hrun as <- _. split.
  - now rewrite ffcf_upto_length, years_valid.
  - unfold ffcf_upto. apply Forall_map, Forall_forall. intros k _.
    rewrite proj_power, Hg, Qplus_0_r, Qpower_1. ring.
Qed.

Lemma explicit_projection_flat_witness :
  exists ffcf pvffcf,
    explicit_projection [50; 100] 3 0 (8#100) = Returns (ffcf, pvffcf) /\
    length ffcf = 3%nat /\
    Forall (fun v => v == 100) ffcf.
Proof.
  pose proof (explicit_projection_flat [50; 100] 3 0 (8#100)
                ltac:(concrete) ltac:(concrete) ltac:(concrete))
    as [Hret Hflat].
  destruct (Hret ltac:(concrete)) as [[ffcf pvffcf] Hst].
  exists ffcf, pvffcf. split; [exact Hst | exact (Hflat ffcf pvffcf Hst)].
Defined.

(** C10 (as amended): multiplying every element of the history, the cash and
    the debt by [lam > 0] leaves a call that raises raising the same
    exception; on valid arguments with discount factors binary64 holds both
    calls return, and up to rounding, that is in exact arithmetic, what they
    return are the closed forms, the second [lam] times the first.  The
    binary64 results themselves need not be in the ratio [lam]. *)
Theorem CalculateDCFDensity_homogeneous (lam : Q) (fcf : list Q) (pf : Z)
  (g pg dr cash debt os : Q) :
  0 < lam ->
  (forall e,
     CalculateDCFDensity fcf pf g pg dr cash debt os = Raises e ->
     CalculateDCFDensity (map (Qmult lam) fcf) pf g pg dr
       (lam * cash) (lam * debt) os = Raises e)
  /\ (fcf <> [] -> (1 <= pf)%Z -> discount_safe dr pf -> ~ dr == pg ->
      ~ os == 0 ->
      exists v v',
        CalculateDCFDensity fcf pf g pg dr cash debt os = Returns v /\
        CalculateDCFDensity (map (Qmult lam) fcf) pf g pg dr
          (lam * cash) (lam * debt) os = Returns v' /\
        v == closed_form (last_fcf fcf) pf g pg dr cash debt os /\
        v' == closed_form (last_fcf (map (Qmult lam) fcf)) pf g pg dr
                (lam * cash) (lam * debt) os /\
        closed_form (last_fcf (map (Qmult lam) fcf)) pf g pg dr
          (lam * cash) (lam * debt) os
        == lam * closed_form (last_fcf fcf) pf g pg dr cash debt os).
Proof.
  intros _. split.
  - intros e He. destruct fcf as [|a l'] eqn:Ef; [exact He|].
    destruct (nonempty_last (a :: l')) as [l Hl]; [discriminate|].
    rewrite Hl in He |- *. rewrite map_app. cbn [map].
    rewrite CalculateDCFDensity_outcome in He |- *.
    pose proof (dcf_outcome_scale lam (last_fcf (a :: l')) pf g pg dr
                  cash debt os) as Hs.
    rewrite He in Hs. clear He. cbn [scale_result] in Hs.
    destruct (dcf_outcome _ _ _ _ _ _ _ _) as [w|e']; simpl in Hs;
      [contradiction | now subst].
  - intros Hne Hpf Hsafe Hpg Hos.
    assert (Hdr : ~ 1 + dr == 0)
      by (apply (discount_safe_nonzero dr pf); [lia | assumption]).
    assert (Hne' : map (Qmult lam) fcf <> [])
      by (destruct fcf; [contradiction | discriminate]).
    assert (Hlast : last_fcf (map (Qmult lam) fcf) = lam * last_fcf fcf).
    { destruct (nonempty_last fcf Hne) as [l Hl]. rewrite Hl at 1.
      rewrite map_app. cbn [map]. apply last_fcf_snoc. }
    do 2 eexists. split; [|split; [|split; [|split]]].
    + apply CalculateDCFDensity_returns; trivial; lia.
    + apply CalculateDCFDensity_returns; trivial; lia.
    + now apply dcf_exact_closed_form.
    + now apply dcf_exact_closed_form.
    + rewrite Hlast. unfold closed_form. apply dcf_value_scale.
Qed.

Lemma CalculateDCFDensity_homogeneous_witness :
  exists v v',
    CalculateDCFDensity [50; 100] 3 (1#10) (2#100) (8#100) 5 7 10
    = Returns v /\
    CalculateDCFDensity (map (Qmult (3#2)) [50; 100]) 3 (1#10) (2#100)
      (8#100) ((3#2) * 5) ((3#2) * 7) 10 = Returns v' /\
    v == closed_form (last_fcf [50; 100]) 3 (1#10) (2#100) (8#100) 5 7 10 /\
    v' == closed_form (last_fcf (map (Qmult (3#2)) [50; 100])) 3 (1#10)
            (2#100) (8#100) ((3#2) * 5) ((3#2) * 7) 10 /\
    closed_form (last_fcf (map (Qmult (3#2)) [50; 100])) 3 (1#10)
      (2#100) (8#100) ((3#2) * 5) ((3#2) * 7) 10
    == (3#2) * closed_form (last_fcf [50; 100]) 3 (1#10) (2#100) (8#100)
                 5 7 10.
Proof.
  apply (CalculateDCFDensity_homogeneous
           (3#2) [50; 100] 3 (1#10) (2#100) (8#100) 5 7 10); concrete.
Defined.

(** C10 as stated fails in binary64: on the history [[1.0]] with one forward
    period, rates [0], [0] and [1], no cash, no debt and five shares,
    multiplying the history by [3] does not multiply the result by [3]: the
    result for [[3.0]] differs from three times the result for [[1.0]].
    The scaling of the arguments and every operation before line 46 are
    exact here. *)
Lemma CalculateDCFDensity64_not_homogeneous :
  (0 <? 3)%float = true /\
  exists r r3,
    CalculateDCFDensity64 [1%float] 1 0 0 1 0 0 5 = Returns r /\
    CalculateDCFDensity64 [(3 * 1)%float] 1 0 0 1 (3 * 0) (3 * 0) 5
    = Returns r3 /\
    (r3 =? 3 * r)%float = false.
Proof.
  split; [reflexivity|].
  do 2 eexists. repeat split; vm_compute; reflexivity.
Qed.

(** ** Further properties of the routine *)

Lemma CalculateDCFDensity_cases (fcf : list Q) (pf : Z)
  (g pg dr cash debt os : Q) :
  CalculateDCFDensity fcf pf g pg dr cash debt os
  = match fcf with
    | [] => Raises IndexError
    | _ :: _ => dcf_outcome (last_fcf fcf) pf g pg dr cash debt os
    end.
Proof.
  destruct fcf as [|a l]; [reflexivity|].
  now apply CalculateDCFDensity_nonempty.
Qed.

Lemma spread_zero (dr pg : Q) : dr - pg == 0 <-> dr == pg.
Proof. split; intros H; lra. Qed.

(** X1: the routine returns only if the history is not empty, the horizon is
    not negative and none of the three divisors [1 + discountRate],
    [discountRate - perpetualGrowthRate] and [outstandingShares] is zero; it
    does return under these conditions when the discount factors are ones
    binary64 holds. *)
Theorem CalculateDCFDensity_returns_conditions (fcf : list Q) (pf : Z)
  (g pg dr cash debt os : Q) :
  ((exists v, CalculateDCFDensity fcf pf g pg dr cash debt os = Returns v) ->
   fcf <> [] /\ (0 <= pf)%Z /\ ~ 1 + dr == 0 /\ ~ dr == pg /\ ~ os == 0)
  /\ (fcf <> [] -> (0 <= pf)%Z -> discount_safe dr pf -> ~ dr == pg ->
      ~ os == 0 ->
      exists v, CalculateDCFDensity fcf pf g pg dr cash debt os = Returns v).
Proof.
  split.
  - rewrite CalculateDCFDensity_cases.
    intros [v Hv]. destruct fcf as [|a l]; [discriminate Hv|].
    unfold dcf_outcome in Hv.
    destruct (Z.ltb_spec pf 0); [discriminate Hv|].
    destruct (Qeq_bool (1 + dr) 0) eqn:E1; [discriminate Hv|].
    destruct (Qeq_bool (dr - pg) 0) eqn:E2; [discriminate Hv|].
    destruct (Qeq_bool os 0) eqn:E3; [discriminate Hv|].
    apply Qeq_bool_neq in E1, E2, E3.
    repeat split; trivial; [discriminate | now rewrite <- spread_zero].
  - intros Hne Hpf Hsafe Hpg Hos.
    eexists. apply CalculateDCFDensity_returns; trivial.
    now apply (discount_safe_nonzero dr pf).
Qed.

Lemma CalculateDCFDensity_returns_conditions_witness :
  exists v,
    CalculateDCFDensity [50; 100] 3 (1#10) (2#100) (8#100) 5 7 10 = Returns v.
Proof.
  apply (CalculateDCFDensity_returns_conditions
           [50; 100] 3 (1#10) (2#100) (8#100) 5 7 10); concrete.
Defined.

Lemma sum_from_1_unit (x g dr : Q) (n : nat) :
  sum_from_1 (explicit_pv x g dr) n == x * sum_from_1 (explicit_pv 1 g dr) n.
Proof.
  induction n as [|n IH].
  - simpl. ring.
  - cbn [sum_from_1]. rewrite IH. unfold explicit_pv, Qdiv. ring.
Qed.

Lemma dcf_value_affine (x : Q) (n : nat) (e : Z) (g pg dr cash debt os : Q) :
  dcf_value x n e g pg dr cash debt os
  == (x * pv_factor n e g pg dr + cash - debt) / os.
Proof.
  unfold dcf_value, pv_factor, terminal_pv. rewrite sum_from_1_unit.
  unfold Qdiv. ring.
Qed.

Lemma sum_from_1_zero (g dr : Q) (n : nat) :
  sum_from_1 (explicit_pv 0 g dr) n == 0.
Proof. rewrite sum_from_1_unit. ring. Qed.

(** X4: when the most recent free cash flow is zero, the projection adds
    nothing: with a horizon that is not negative, discount factors binary64
    holds and no zero divisor, the routine returns net cash per share,
    [(totalCash - totalDebt) / outstandingShares], whatever the other rates
    are. *)
Theorem CalculateDCFDensity_zero_anchor (fcf : list Q) (pf : Z)
  (g pg dr cash debt os : Q) :
  fcf <> [] -> last_fcf fcf == 0 -> (0 <= pf)%Z ->
  discount_safe dr pf -> ~ dr == pg -> ~ os == 0 ->
  exists v,
    CalculateDCFDensity fcf pf g pg dr cash debt os = Returns v /\
    v == (cash - debt) / os.
Proof.
  intros Hne Hz Hpf Hsafe Hpg Hos. eexists. split.
  - apply CalculateDCFDensity_returns; trivial.
    now apply (discount_safe_nonzero dr pf).
  - rewrite dcf_exact_value, dcf_value_affine, Hz. unfold Qdiv. ring.
Qed.

Lemma CalculateDCFDensity_zero_anchor_witness :
  exists v,
    CalculateDCFDensity [50; 0] 3 (1#10) (2#100) (8#100) 5 7 10 = Returns v /\
    v == (5 - 7) / 10.
Proof.
  apply (CalculateDCFDensity_zero_anchor
           [50; 0] 3 (1#10) (2#100) (8#100) 5 7 10); concrete.
Defined.

Lemma gordon_sum (x g dr : Q) (n : nat) :
  ~ 1 + dr == 0 -> ~ dr - g == 0 ->
  sum_from_1 (explicit_pv x g dr) n
  + terminal_pv x n (Z.of_nat n + 1) g g dr
  == gordon x g dr
     * (1 - dr / (1 + dr) * ((1 + g) / (1 + dr)) ^ Z.of_nat n).
Proof.
  intros Hdr Hsp. induction n as [|n IH].
  - unfold terminal_pv, gordon. simpl. field. split; assumption.
  - cbn [sum_from_1].
    assert (Hs : sum_from_1 (explicit_pv x g dr) n
                 == gordon x g dr
                    * (1 - dr / (1 + dr)
                           * ((1 + g) / (1 + dr)) ^ Z.of_nat n)
                    - terminal_pv x n (Z.of_nat n + 1) g g dr)
      by (rewrite <- IH; ring).
    rewrite Hs. unfold terminal_pv, gordon, explicit_pv.
    rewrite !Qdiv_power.
    replace (Z.of_nat (S n) + 1)%Z with (Z.of_nat n + 1 + 1)%Z by lia.
    replace (Z.of_nat (S n)) with (Z.of_nat n + 1)%Z by lia.
    rewrite !(Qpower_plus' (1 + g)) by lia.
    rewrite !(Qpower_plus (1 + dr)) by assumption.
    rewrite !Qpower_1_r.
    assert (Hb : ~ (1 + dr) ^ Z.of_nat n == 0) by (now apply Qpower_not_0).
    clear IH Hs. revert Hb.
    generalize ((1 + dr) ^ Z.of_nat n), ((1 + g) ^ Z.of_nat n).
    intros b a Hb. field. repeat split; assumption.
Qed.

(** X8: when the growth rate of the projection equals the perpetual growth
    rate, the Gordon perpetuity [fcf0 (1+g) / (dr - g)] is not recovered:
    the terminal value being discounted one year late, the present value of
    the cash flows is the perpetuity reduced by the fraction
    [dr / (1 + dr) * ((1 + g) / (1 + dr)) ^ forwardPeriods].  This is the
    value returned, up to rounding, on valid arguments with discount factors
    binary64 holds. *)
Theorem CalculateDCFDensity_gordon (fcf : list Q) (pf : Z)
  (g pg dr cash debt os : Q) :
  fcf <> [] -> (1 <= pf)%Z -> g == pg ->
  discount_safe dr pf -> ~ dr == pg -> ~ os == 0 ->
  exists v,
    CalculateDCFDensity fcf pf g pg dr cash debt os = Returns v /\
    v == (gordon (last_fcf fcf) g dr
          * (1 - dr / (1 + dr) * ((1 + g) / (1 + dr)) ^ pf)
          + cash - debt) / os.
Proof.
  intros Hne Hpf Hg Hsafe Hpg Hos.
  assert (Hdr : ~ 1 + dr == 0)
    by (apply (discount_safe_nonzero dr pf); [lia | assumption]).
  eexists. split.
  - apply CalculateDCFDensity_returns; trivial; lia.
  - rewrite dcf_exact_value, years_valid by assumption.
    assert (Hsp : ~ dr - g == 0) by (rewrite Hg; lra).
    pose proof (gordon_sum (last_fcf fcf) g dr (Z.to_nat pf) Hdr Hsp) as H.
    rewrite Z2Nat.id in H by lia.
    unfold dcf_value. rewrite <- H. unfold terminal_pv. rewrite <- Hg.
    reflexivity.
Qed.

Lemma CalculateDCFDensity_gordon_witness :
  exists v,
    CalculateDCFDensity [50; 100] 3 (2#100) (2#100) (8#100) 5 7 10
    = Returns v /\
    v == (gordon 100 (2#100) (8#100)
          * (1 - (8#100) / (1 + (8#100))
                 * ((1 + (2#100)) / (1 + (8#100))) ^ 3)
          + 5 - 7) / 10.
Proof.
  apply (CalculateDCFDensity_gordon
           [50; 100] 3 (2#100) (2#100) (8#100) 5 7 10); concrete.
Defined.

(** ** The status check *)

Lemma same_outcome_eq (o1 o2 : outcome unit) :
  same_outcome o1 o2 = true -> o1 = o2.
Proof.
  destruct o1 as [[]|[e1|m1|]], o2 as [[]|[e2|m2|]]; simpl;
    try discriminate; try reflexivity.
  intros H. apply String.eqb_eq in H. now subst.
Qed.

Lemma py_range_In (a b c : Z) : (a <= c < b)%Z -> In c (py_range a b).
Proof.
  intros H. unfold py_range. apply in_map_iff.
  exists (Z.to_nat (c - a)). split; [lia|]. apply in_seq. lia.
Qed.

Lemma checked_on_range (f : Z -> outcome unit) (a b : Z) :
  forallb (fun c => same_outcome (CheckHTTPStatusCode c) (f c)) (py_range a b)
  = true ->
  forall c, (a <= c < b)%Z -> CheckHTTPStatusCode c = f c.
Proof.
  intros H c Hc. apply same_outcome_eq.
  rewrite forallb_forall in H. apply H. now apply py_range_In.
Qed.

Lemma py_char_at_head (c : ascii) (s : string) :
  py_char_at (String c s) 0 = Ok c.
Proof.
  unfold py_char_at. cbn [String.length]. cbv zeta.
  change (0 <? 0)%Z with false. cbv iota.
  destruct (Z.leb_spec (Z.of_nat (S (String.length s))) 0); [lia|].
  reflexivity.
Qed.

(** X9: Status codes of the classes 1xx and 2xx pass the check. *)
Theorem CheckHTTPStatusCode_success (code : Z) :
  (100 <= code <= 299)%Z -> CheckHTTPStatusCode code = Ok tt.
Proof.
  intros H.
  apply (checked_on_range (fun _ => Ok tt) 100 300); [|lia].
  vm_compute. reflexivity.
Qed.

Lemma CheckHTTPStatusCode_success_witness : CheckHTTPStatusCode 200 = Ok tt.
Proof. apply (CheckHTTPStatusCode_success 200). lia. Defined.

(** X10: Status codes of the classes 3xx, 4xx and 5xx raise [Exception], with the
    message of their class; the message of 5xx reads "client error" like
    that of 4xx. *)
Theorem CheckHTTPStatusCode_failure (code : Z) :
  (300 <= code <= 599)%Z ->
  CheckHTTPStatusCode code
  = Fail (Exception
            (if (code <? 400)%Z then "HTTP status: 3xx redirection"
             else if (code <? 500)%Z then "HTTP status: 4xx client error"
             else "HTTP status: 5xx client error")).
Proof.
  intros H. apply (checked_on_range http_failure 300 600); [|lia].
  vm_compute. reflexivity.
Qed.

Lemma CheckHTTPStatusCode_failure_witness :
  CheckHTTPStatusCode 503 = Fail (Exception "HTTP status: 5xx client error").
Proof. apply (CheckHTTPStatusCode_failure 503). lia. Defined.

(** X11: The check looks at the first character only and has no final [else]:
    codes of the classes 6xx to 9xx, zero and every negative code pass it
    silently. *)
Theorem CheckHTTPStatusCode_unknown_class (code : Z) :
  (code <= 0 \/ 600 <= code <= 999)%Z -> CheckHTTPStatusCode code = Ok tt.
Proof.
  intros [H|H].
  - destruct code as [|p|p]; [reflexivity | lia |].
    unfold CheckHTTPStatusCode, py_str. cbn [Z.to_int NilZero.string_of_int].
    now rewrite py_char_at_head.
  - apply (checked_on_range (fun _ => Ok tt) 600 1000); [|lia].
    vm_compute. reflexivity.
Qed.

Lemma CheckHTTPStatusCode_unknown_class_witness :
  CheckHTTPStatusCode 600 = Ok tt /\ CheckHTTPStatusCode (-404) = Ok tt.
Proof.
  split.
  - apply (CheckHTTPStatusCode_unknown_class 600). lia.
  - apply (CheckHTTPStatusCode_unknown_class (-404)). lia.
Defined.

(** ** Slices *)

Lemma py_slice_all {A : Type} (l : list A) (b : Z) :
  (Z.of_nat (length l) <= b)%Z -> py_slice l 0 b = l.
Proof.
  intros H. unfold py_slice.
  change (0 <? 0)%Z with false. cbv iota.
  destruct (Z.ltb_spec b 0); [lia|].
  rewrite Z.min_l by lia. rewrite Z.min_r by lia.
  simpl skipn. rewrite Nat2Z.id. apply firstn_all.
Qed.

Lemma py_slice_from_2 {A : Type} (l : list A) (t : Z) :
  (1 <= t)%Z ->
  py_slice l 2 (t + 2) = skipn 2 (firstn (Z.to_nat (t + 2)) l).
Proof.
  intros H. unfold py_slice.
  change (2 <? 0)%Z with false. cbv iota.
  destruct (Z.ltb_spec (t + 2) 0); [lia|].
  destruct (Z.le_gt_cases (Z.of_nat (length l)) 2) as [Hs|Hs].
  - rewrite !skipn_all2; trivial; rewrite length_firstn; lia.
  - rewrite (Z.min_l 2) by lia.
    destruct (Z.le_gt_cases (t + 2) (Z.of_nat (length l))) as [Hb|Hb].
    + now rewrite Z.min_l by lia.
    + rewrite Z.min_r by lia. rewrite Nat2Z.id.
      now rewrite !firstn_all2 by lia.
Qed.

Lemma py_slice_from_2_length {A : Type} (l : list A) (t : Z) :
  (1 <= t)%Z ->
  length (py_slice l 2 (t + 2)) = Nat.min (Z.to_nat t) (length l - 2).
Proof.
  intros H. rewrite py_slice_from_2 by assumption.
  rewrite length_skipn, length_firstn. lia.
Qed.

Lemma py_slice_from_2_head {A : Type} (l : list A) (t : Z) (x : A)
  (rest : list A) :
  (1 <= t)%Z -> py_slice l 2 (t + 2) = x :: rest -> py_index l 2 = Returns x.
Proof.
  intros H Hs. rewrite py_slice_from_2 in Hs by assumption.
  apply (py_index_nat l 2 x).
  replace (Z.to_nat (t + 2)) with (S (S (S (Z.to_nat (t - 1))))) in Hs by lia.
  destruct l as [|a [|b [|c l]]]; try discriminate Hs.
  simpl in Hs. now injection Hs as -> _.
Qed.

Lemma float_each_length (py_float : string -> option Q) (texts : list string)
  (vs : list Q) :
  float_each py_float texts = Ok vs -> length vs = length texts.
Proof.
  revert vs. induction texts as [|t rest IH]; intros vs H; simpl in H.
  - now injection H as <-.
  - destruct (float_without py_float "," t); [|discriminate H].
    destruct (float_each py_float rest) as [ws|]; [|discriminate H].
    injection H as <-. simpl. now rewrite (IH ws).
Qed.

Section ScraperFacts.

Variable py_float : string -> option Q.
Variable requests_get : string -> header -> page.

Lemma GetFreeCashFlow_run (tk : string) (h : header) (t : Z)
  (log : list event) :
  (1 <= t <= 4)%Z ->
  GetFreeCashFlow py_float requests_get tk h t log
  = (read_free_cash_flow py_float (requests_get (cash_flow_url tk) h) t,
     log ++ [Requested (cash_flow_url tk) h]).
Proof.
  intros Ht. unfold GetFreeCashFlow, read_free_cash_flow.
  unfold io_bind, request, io_lift, io_raise, io_ret.
  fold (cash_flow_url tk).
  destruct (Z.ltb_spec 4 t); [lia|].
  destruct (Z.ltb_spec t 1); [lia|].
  destruct (CheckHTTPStatusCode _); [|reflexivity].
  destruct (py_index _ 1) as [row|e]; [|reflexivity]. cbn [of_result].
  destruct (float_each _ _) as [vs|e]; [|reflexivity].
  destruct (Z.leb_spec t (Z.of_nat (length (map (fun fcf => fcf * 1000) vs))));
    [reflexivity|].
  now rewrite py_slice_all by lia.
Qed.

Lemma GetFreeCashFlow_out_of_range (tk : string) (h : header) (t : Z)
  (log : list event) :
  (t < 1 \/ 4 < t)%Z ->
  GetFreeCashFlow py_float requests_get tk h t log
  = (Fail (Exception
             (if (4 <? t)%Z
              then "Too many years in past for Yahoo Finance data"
              else "Too years in past is less than one")),
     log ++ [Requested (cash_flow_url tk) h]).
Proof.
  intros Ht. unfold GetFreeCashFlow.
  unfold io_bind, request, io_raise. fold (cash_flow_url tk).
  destruct (Z.ltb_spec 4 t); [reflexivity|].
  destruct (Z.ltb_spec t 1); [reflexivity | lia].
Qed.

Lemma GetFreeCashFlow_returns_range (tk : string) (h : header) (t : Z)
  (log log' : list event) (hist : list Q) :
  GetFreeCashFlow py_float requests_get tk h t log = (Ok hist, log') ->
  (1 <= t <= 4)%Z.
Proof.
  intros Hrun.
  destruct (Z.lt_ge_cases t 1) as [H1|H1];
    [|destruct (Z.lt_ge_cases 4 t) as [H4|H4]; [|lia]];
    rewrite GetFreeCashFlow_out_of_range in Hrun by lia;
    discriminate Hrun.
Qed.

(** X12: A number of years outside [1..4] makes [GetFreeCashFlow] raise
    [Exception] whatever the page is, and only after the page has been
    requested. *)
Theorem GetFreeCashFlow_years_checked (tk : string) (h : header) (t : Z)
  (log : list event) :
  (t < 1 \/ 4 < t)%Z ->
  GetFreeCashFlow py_float requests_get tk h t log
  = (Fail (Exception
             (if (4 <? t)%Z
              then "Too many years in past for Yahoo Finance data"
              else "Too years in past is less than one")),
     log ++ [Requested (cash_flow_url tk) h]).
Proof. apply GetFreeCashFlow_out_of_range. Qed.

(** X13: [GetFreeCashFlow] returns a history exactly when the number of years is
    in [1..4], the status check passes, the page has a second match of the
    title and every span at positions [2] to [t+1] of its row is a number;
    the history is then these numbers in thousands, reversed, and exactly
    one request has been made.  The [try] of lines 127-132 changes
    nothing. *)
Theorem GetFreeCashFlow_returns_iff (tk : string) (h : header) (t : Z)
  (log log' : list event) (hist : list Q) :
  GetFreeCashFlow py_float requests_get tk h t log = (Ok hist, log')
  <-> ((1 <= t <= 4)%Z /\
       CheckHTTPStatusCode (status_code (requests_get (cash_flow_url tk) h))
       = Ok tt /\
       (exists row vs,
          py_index (find_all (requests_get (cash_flow_url tk) h)
                      "title" "Free cash flow") 1 = Returns row /\
          float_each py_float (py_slice (spans row) 2 (t + 2)) = Ok vs /\
          hist = rev (map (fun v => v * 1000) vs)) /\
       log' = log ++ [Requested (cash_flow_url tk) h]).
Proof.
  split.
  - intros Hrun.
    pose proof (GetFreeCashFlow_returns_range _ _ _ _ _ _ Hrun) as Ht.
    rewrite GetFreeCashFlow_run in Hrun by assumption.
    injection Hrun as Hread <-. unfold read_free_cash_flow in Hread.
    destruct (CheckHTTPStatusCode _) as [[]|]; [|discriminate Hread].
    destruct (py_index _ 1) as [row|]; [|discriminate Hread].
    destruct (float_each _ _) as [vs|] eqn:Ef; [|discriminate Hread].
    injection Hread as <-.
    repeat split; trivial; try lia. now exists row, vs.
  - intros (Ht & Hst & (row & vs & Hrow & Hvs & ->) & ->).
    rewrite GetFreeCashFlow_run by assumption.
    unfold read_free_cash_flow. now rewrite Hst, Hrow, Hvs.
Qed.


(** X14: A history that is returned has at most [t] entries, hence at most four:
    as many as the row has spans from position [2] on, and no more than
    asked for.  A row that is too short is not an error. *)
Theorem GetFreeCashFlow_length (tk : string) (h : header) (t : Z)
  (log log' : list event) (hist : list Q) :
  GetFreeCashFlow py_float requests_get tk h t log = (Ok hist, log') ->
  exists row,
    py_index (find_all (requests_get (cash_flow_url tk) h)
                "title" "Free cash flow") 1 = Returns row /\
    length hist = Nat.min (Z.to_nat t) (length (spans row) - 2) /\
    (length hist <= 4)%nat.
Proof.
  intros Hrun.
  pose proof (GetFreeCashFlow_returns_range _ _ _ _ _ _ Hrun) as Ht.
  rewrite GetFreeCashFlow_run in Hrun by assumption.
  injection Hrun as Hread _. unfold read_free_cash_flow in Hread.
  destruct (CheckHTTPStatusCode _) as [[]|]; [|discriminate Hread].
  destruct (py_index _ 1) as [row|]; [|discriminate Hread].
  destruct (float_each _ _) as [vs|] eqn:Ef; [|discriminate Hread].
  injection Hread as <-. exists row. split; [reflexivity|].
  apply float_each_length in Ef.
  rewrite length_rev, length_map, Ef, py_slice_from_2_length by lia.
  split; lia.
Qed.

(** X15: The last element of a returned history, the one the routine projects
    from, is the span at position [2] of the row, in thousands. *)
Theorem GetFreeCashFlow_anchor (tk : string) (h : header) (t : Z)
  (log log' : list event) (hist : list Q) :
  GetFreeCashFlow py_float requests_get tk h t log = (Ok hist, log') ->
  hist <> [] ->
  exists row text v,
    py_index (find_all (requests_get (cash_flow_url tk) h)
                "title" "Free cash flow") 1 = Returns row /\
    py_index (spans row) 2 = Returns text /\
    float_without py_float "," text = Ok v /\
    last_fcf hist = v * 1000.
Proof.
  intros Hrun Hne.
  pose proof (GetFreeCashFlow_returns_range _ _ _ _ _ _ Hrun) as Ht.
  rewrite GetFreeCashFlow_run in Hrun by assumption.
  injection Hrun as Hread _. unfold read_free_cash_flow in Hread.
  destruct (CheckHTTPStatusCode _) as [[]|]; [|discriminate Hread].
  destruct (py_index _ 1) as [row|]; [|discriminate Hread].
  destruct (float_each _ _) as [vs|] eqn:Ef; [|discriminate Hread].
  injection Hread as <-.
  destruct vs as [|v0 vs]; [now contradiction Hne|].
  destruct (py_slice (spans row) 2 (t + 2)) as [|text texts] eqn:Es;
    [discriminate Ef|].
  cbn [float_each] in Ef.
  destruct (float_without py_float "," text) as [v|] eqn:Ev;
    [|discriminate Ef].
  destruct (float_each py_float texts) as [ws|]; [|discriminate Ef].
  injection Ef as -> ->.
  exists row, text, v0. repeat split; trivial.
  - apply (py_slice_from_2_head _ t text texts); [lia | assumption].
  - cbn [map rev]. apply last_fcf_snoc.
Qed.

Ltac run_getter :=
  unfold io_bind, request, io_lift, io_ret; cbn [fst];
  repeat match goal with
    | |- context [match ?o with Ok _ => _ | Fail _ => _ end] =>
        destruct o; [|reflexivity]
    | |- context [of_result ?r] => destruct r; cbn [of_result]
    end;
  try reflexivity.

Lemma GetTotalCash_frame (tk : string) (h : header) (log : list event) :
  GetTotalCash py_float requests_get tk h log
  = (fst (GetTotalCash py_float requests_get tk h []),
     log ++ [Requested (total_cash_url tk) h]).
Proof. unfold GetTotalCash. fold (total_cash_url tk). run_getter. Qed.

Lemma GetTotalDebt_frame (tk : string) (h : header) (log : list event) :
  GetTotalDebt py_float requests_get tk h log
  = (fst (GetTotalDebt py_float requests_get tk h []),
     log ++ [Requested (total_debt_url tk) h]).
Proof. unfold GetTotalDebt. fold (total_debt_url tk). run_getter. Qed.

Lemma GetOutstandingShares_frame (tk : string) (h : header)
  (log : list event) :
  GetOutstandingShares py_float requests_get tk h log
  = (fst (GetOutstandingShares py_float requests_get tk h []),
     log ++ [Requested (shares_url tk) h]).
Proof. unfold GetOutstandingShares. fold (shares_url tk). run_getter. Qed.

Lemma GetFreeCashFlow_frame (tk : string) (h : header) (t : Z)
  (log : list event) :
  GetFreeCashFlow py_float requests_get tk h t log
  = (fst (GetFreeCashFlow py_float requests_get tk h t []),
     log ++ [Requested (cash_flow_url tk) h]).
Proof.
  destruct (Z.lt_ge_cases t 1) as [H1|H1];
    [|destruct (Z.lt_ge_cases 4 t) as [H4|H4]].
  - now rewrite !GetFreeCashFlow_out_of_range by lia.
  - now rewrite !GetFreeCashFlow_out_of_range by lia.
  - now rewrite !GetFreeCashFlow_run by lia.
Qed.

End ScraperFacts.

Lemma CheckHTTPStatusCode_fails (code : Z) :
  (300 <= code <= 599)%Z ->
  CheckHTTPStatusCode code = Fail (Exception (status_message code)).
Proof.
  intros H. apply (checked_on_range http_failure 300 600); [|lia].
  vm_compute. reflexivity.
Qed.

Section MainFacts.

Variable py_float : string -> option Q.
Variable requests_get : string -> header -> page.

(** X17: When every request is answered with a status of the classes 3xx to 5xx,
    each reader raises the [Exception] of that class before it looks at the
    page ([GetFreeCashFlow] for a number of years in [1..4]). *)
Theorem readers_check_status_first (tk : string) (h : header) (t : Z)
  (log : list event) :
  (1 <= t <= 4)%Z ->
  (forall url, (300 <= status_code (requests_get url h) <= 599)%Z) ->
  GetFreeCashFlow py_float requests_get tk h t log
  = (Fail (Exception
             (status_message
                (status_code (requests_get (cash_flow_url tk) h)))),
     log ++ [Requested (cash_flow_url tk) h])
  /\ GetTotalCash py_float requests_get tk h log
     = (Fail (Exception
                (status_message
                   (status_code (requests_get (total_cash_url tk) h)))),
        log ++ [Requested (total_cash_url tk) h])
  /\ GetTotalDebt py_float requests_get tk h log
     = (Fail (Exception
                (status_message
                   (status_code (requests_get (total_debt_url tk) h)))),
        log ++ [Requested (total_debt_url tk) h])
  /\ GetOutstandingShares py_float requests_get tk h log
     = (Fail (Exception
                (status_message
                   (status_code (requests_get (shares_url tk) h)))),
        log ++ [Requested (shares_url tk) h]).
Proof.
  intros Ht Hst. repeat split.
  - rewrite GetFreeCashFlow_run by assumption. unfold read_free_cash_flow.
    now rewrite CheckHTTPStatusCode_fails by apply Hst.
  - unfold GetTotalCash, io_bind, request, io_lift.
    fold (total_cash_url tk).
    now rewrite CheckHTTPStatusCode_fails by apply Hst.
  - unfold GetTotalDebt, io_bind, request, io_lift.
    fold (total_debt_url tk).
    now rewrite CheckHTTPStatusCode_fails by apply Hst.
  - unfold GetOutstandingShares, io_bind, request, io_lift.
    fold (shares_url tk).
    now rewrite CheckHTTPStatusCode_fails by apply Hst.
Qed.

Lemma main_run (a : args) (hist : list Q) (c d s : Q) :
  fst (GetFreeCashFlow py_float requests_get (ticker a) (header_of a)
         (period_backwards a) []) = Ok hist ->
  fst (GetTotalCash py_float requests_get (ticker a) (header_of a) [])
  = Ok c ->
  fst (GetTotalDebt py_float requests_get (ticker a) (header_of a) [])
  = Ok d ->
  fst (GetOutstandingShares py_float requests_get (ticker a) (header_of a) [])
  = Ok s ->
  main py_float requests_get a []
  = (fst (valuation_end
            (CalculateDCFDensity hist (period_forwards a) (growth_rate a)
               (perpetual_growth_rate a) (discount_rate a) c d s)),
     scraping_log (ticker a) (header_of a)
     ++ snd (valuation_end
               (CalculateDCFDensity hist (period_forwards a) (growth_rate a)
                  (perpetual_growth_rate a) (discount_rate a) c d s))).
Proof.
  intros Hf Hc Hd Hs. unfold main. fold (header_of a).
  fold (banner (ticker a)). unfold io_bind at 1. unfold emit at 1.
  unfold io_bind at 1. rewrite GetFreeCashFlow_frame, Hf.
  unfold io_bind at 1. unfold emit at 1.
  unfold io_bind at 1. rewrite GetTotalCash_frame, Hc.
  unfold io_bind at 1. unfold emit at 1.
  unfold io_bind at 1. rewrite GetTotalDebt_frame, Hd.
  unfold io_bind at 1. unfold emit at 1.
  unfold io_bind at 1. rewrite GetOutstandingShares_frame, Hs.
  unfold io_bind at 1. unfold emit at 1.
  unfold io_bind, io_lift, emit.
  destruct (CalculateDCFDensity _ _ _ _ _ _ _ _) as [v|e];
    cbn [of_result valuation_end fst snd]; reflexivity.
Qed.

(** X18: A row with no span beyond position [1] is not noticed by the scraper:
    when the other three readers succeed, [main] reads all four pages and
    only then fails, with the [IndexError] of the routine on an empty
    history; no price is printed. *)
Theorem main_short_row (a : args) (row : element) (c d s : Q) :
  (1 <= period_backwards a <= 4)%Z ->
  CheckHTTPStatusCode
    (status_code (requests_get (cash_flow_url (ticker a)) (header_of a)))
  = Ok tt ->
  py_index (find_all (requests_get (cash_flow_url (ticker a)) (header_of a))
              "title" "Free cash flow") 1 = Returns row ->
  (length (spans row) <= 2)%nat ->
  fst (GetTotalCash py_float requests_get (ticker a) (header_of a) [])
  = Ok c ->
  fst (GetTotalDebt py_float requests_get (ticker a) (header_of a) [])
  = Ok d ->
  fst (GetOutstandingShares py_float requests_get (ticker a) (header_of a) [])
  = Ok s ->
  main py_float requests_get a []
  = (Fail (Builtin IndexError), scraping_log (ticker a) (header_of a)).
Proof.
  intros Ht Hst Hrow Hlen Hc Hd Hs.
  assert (Hf : fst (GetFreeCashFlow py_float requests_get (ticker a)
                      (header_of a) (period_backwards a) []) = Ok []).
  { rewrite GetFreeCashFlow_run by assumption. cbn [fst].
    unfold read_free_cash_flow. rewrite Hst, Hrow.
    assert (Hnil : py_slice (spans row) 2 (period_backwards a + 2) = []).
    { apply length_zero_iff_nil. rewrite py_slice_from_2_length by lia. lia. }
    now rewrite Hnil. }
  rewrite (main_run a [] c d s Hf Hc Hd Hs).
  rewrite CalculateDCFDensity_empty.
  cbn [valuation_end fst snd]. now rewrite app_nil_r.
Qed.

(** X19: With the default model parameters the valuation step of [main] fails
    only on an empty history or a zero share count: when the four readers
    succeed with a non-empty history and a non-zero share count, [main]
    prints the closed form for four forward periods, growth 0.15, perpetual
    growth 0.025 and discount rate 0.08. *)
Theorem main_default_parameters (tk : string) (hist : list Q) (c d s : Q) :
  fst (GetFreeCashFlow py_float requests_get tk default_header 4 [])
  = Ok hist ->
  fst (GetTotalCash py_float requests_get tk default_header []) = Ok c ->
  fst (GetTotalDebt py_float requests_get tk default_header []) = Ok d ->
  fst (GetOutstandingShares py_float requests_get tk default_header [])
  = Ok s ->
  hist <> [] -> ~ s == 0 ->
  exists v,
    main py_float requests_get (default_args tk) []
    = (Ok tt, scraping_log tk default_header ++ [PrintedPrice v]) /\
    v == closed_form (last_fcf hist) 4 (15#100) (25#1000) (8#100) c d s.
Proof.
  intros Hf Hc Hd Hs Hne Hs0.
  destruct (returns_closed_form hist 4 (15#100) (25#1000) (8#100) c d s)
    as [v [Hv Hcf]]; trivial; try concrete.
  exists v. split; [|exact Hcf].
  rewrite (main_run (default_args tk) hist c d s); trivial.
  cbn [period_forwards growth_rate perpetual_growth_rate discount_rate
       default_args ticker header_of header_arg].
  now rewrite Hv.
Qed.

End MainFacts.

(** ** Runs on a sample page *)

Lemma GetFreeCashFlow_years_checked_witness :
  GetFreeCashFlow integer_literal (sample_web 200 sample_spans)
    "GOOG" default_header 5 []
  = (Fail (Exception "Too many years in past for Yahoo Finance data"),
     [Requested (cash_flow_url "GOOG") default_header]).
Proof.
  apply (GetFreeCashFlow_years_checked integer_literal
           (sample_web 200 sample_spans) "GOOG" default_header 5 []).
  lia.
Defined.

Lemma GetFreeCashFlow_length_witness :
  exists row,
    py_index (find_all (sample_page 200 sample_spans)
                "title" "Free cash flow") 1 = Returns row /\
    length sample_history
    = Nat.min (Z.to_nat 3) (length (spans row) - 2) /\
    (length sample_history <= 4)%nat.
Proof.
  apply (GetFreeCashFlow_length integer_literal
           (sample_web 200 sample_spans) "GOOG" default_header 3 []
           [Requested (cash_flow_url "GOOG") default_header]
           sample_history).
  vm_compute. reflexivity.
Defined.

Lemma GetFreeCashFlow_anchor_witness :
  exists row text v,
    py_index (find_all (sample_page 200 sample_spans)
                "title" "Free cash flow") 1 = Returns row /\
    py_index (spans row) 2 = Returns text /\
    float_without integer_literal "," text = Ok v /\
    last_fcf sample_history = v * 1000.
Proof.
  apply (GetFreeCashFlow_anchor integer_literal
           (sample_web 200 sample_spans) "GOOG" default_header 3 []
           [Requested (cash_flow_url "GOOG") default_header]
           sample_history).
  - vm_compute. reflexivity.
  - discriminate.
Defined.

Lemma readers_check_status_first_witness :
  GetTotalDebt integer_literal (sample_web 503 sample_spans)
    "GOOG" default_header []
  = (Fail (Exception "HTTP status: 5xx client error"),
     [Requested (total_debt_url "GOOG") default_header]).
Proof.
  apply (readers_check_status_first integer_literal
           (sample_web 503 sample_spans) "GOOG" default_header 4 []).
  - lia.
  - intros url. simpl. lia.
Defined.

Lemma main_short_row_witness :
  main integer_literal
    (sample_web 200 ["Free cash flow"; "69,495,000"]%string)
    (default_args "GOOG") []
  = (Fail (Builtin IndexError), scraping_log "GOOG" default_header).
Proof.
  apply (main_short_row integer_literal
           (sample_web 200 ["Free cash flow"; "69,495,000"]%string)
           (default_args "GOOG")
           {| spans := ["Free cash flow"; "69,495,000"]%string; tds := [] |}
           110916000000 28504000000 12000000000).
  - simpl. lia.
  - reflexivity.
  - reflexivity.
  - simpl. lia.
  - vm_compute. reflexivity.
  - vm_compute. reflexivity.
  - vm_compute. reflexivity.
Defined.

Lemma main_default_parameters_witness :
  exists v,
    main integer_literal (sample_web 200 sample_spans) (default_args "GOOG") []
    = (Ok tt, scraping_log "GOOG" default_header ++ [PrintedPrice v]) /\
    v == closed_form
           (last_fcf [42843000000; 67012000000; 60010000000; 69495000000])
           4 (15#100) (25#1000) (8#100)
           110916000000 28504000000 12000000000.
Proof.
  apply (main_default_parameters integer_literal
           (sample_web 200 sample_spans) "GOOG").
  - vm_compute. reflexivity.
  - vm_compute. reflexivity.
  - vm_compute. reflexivity.
  - vm_compute. reflexivity.
  - discriminate.
  - concrete.
Defined.
